(** * AI Financial Analyst (app.py): session handling, verified

    A shallow embedding of [app.py] and the properties of its
    question/answer cycle, its model client and its speech adapter.

    The program is a Streamlit script: every user action runs [main] once,
    against the session state kept between runs.  The embedding keeps that
    shape.  A script is a function on a [world] (the session state, what
    has been put on the page, the prompts handed to the model) that ends
    normally, by an exception, or by [st.rerun()].  The widgets' readings
    and the outcomes of the external services (microphone, recogniser,
    language model, speech synthesis) are the inputs of a run. *)

From Stdlib Require Import String Ascii List NArith ZArith Bool.
Import ListNotations.

(** ** Python values *)

Module Py.

(** A Python [str] is a sequence of Unicode code points. *)
Definition str := list N.

(** A string literal of the source, character by character. *)
Definition lit (s : string) : str :=
  map N_of_ascii (list_ascii_of_string s).

(** The double quote and the newline, which a Rocq literal cannot hold. *)
Definition dq : str := [34%N].
Definition nl : str := [10%N].

Definition between (lo hi c : N) : bool := (lo <=? c)%N && (c <=? hi)%N.

(** [str.isspace] on one character: the code points whose bidirectional
    class is WS, B or S, or whose category is Zs. *)
Definition isspace (c : N) : bool :=
  between 0x09 0x0D c || between 0x1C 0x20 c
  || (c =? 0x85)%N || (c =? 0xA0)%N || (c =? 0x1680)%N
  || between 0x2000 0x200A c
  || (c =? 0x2028)%N || (c =? 0x2029)%N || (c =? 0x202F)%N
  || (c =? 0x205F)%N || (c =? 0x3000)%N.

(** [s.lstrip()], [s.rstrip()] and [s.strip()] with no argument. *)
Fixpoint lstrip (s : str) : str :=
  match s with
  | [] => []
  | c :: t => if isspace c then lstrip t else s
  end.

Definition rstrip (s : str) : str := rev (lstrip (rev s)).

Definition strip (s : str) : str := rstrip (lstrip s).

(** [p in s] for strings: [p] occurs in [s] as a contiguous run. *)
Fixpoint startswith (s p : str) : bool :=
  match p, s with
  | [], _ => true
  | _ :: _, [] => false
  | a :: p', b :: s' => (a =? b)%N && startswith s' p'
  end.

Fixpoint contains (s p : str) : bool :=
  startswith s p ||
  match s with
  | [] => false
  | _ :: t => contains t p
  end.

(** The values a call into a library can hand back. *)
#[warnings="-register-all"]
Inductive value : Type :=
| PyNone
| PyBool (b : bool)
| PyInt (z : Z)
| PyStr (s : str)
| PyList (l : list value).

(** [bool(s)] for a string: it is not empty. *)
Definition nonempty (s : str) : bool :=
  match s with
  | [] => false
  | _ :: _ => true
  end.

(** [bool(v)], as [if v:] and [not v] compute it. *)
Definition truthy (v : value) : bool :=
  match v with
  | PyNone => false
  | PyBool b => b
  | PyInt z => negb (z =? 0)%Z
  | PyStr s => nonempty s
  | PyList l => match l with [] => false | _ :: _ => true end
  end.

(** [isinstance(v, str)]. *)
Definition isinstance_str (v : value) : bool :=
  match v with
  | PyStr _ => true
  | _ => false
  end.

(** [type(v).__name__]. *)
Definition type_name (v : value) : str :=
  match v with
  | PyNone => lit "NoneType"
  | PyBool _ => lit "bool"
  | PyInt _ => lit "int"
  | PyStr _ => lit "str"
  | PyList _ => lit "list"
  end.

(** Exceptions below [Exception], by the classes the program tells apart.
    [msg e] is [str(e)]. *)
Inductive exn_class : Type :=
| UnknownValueError   (* sr.UnknownValueError *)
| RequestError        (* sr.RequestError *)
| AttributeError
| OtherError.         (* any other subclass of Exception *)

Record exn : Type := Exn { cls : exn_class; msg : str }.

(** What a call into a library does: it returns or it raises. *)
Inductive result (A : Type) : Type :=
| Returns (a : A)
| Raises (e : exn).
Arguments Returns {A} a.
Arguments Raises {A} e.

End Py.

(** ** Streamlit: the page, the session state and the script monad *)

Module St.
Import Py.

(** A chat turn is the dict [{"role": ..., "content": ...}]; the two role
    strings the program writes are ["user"] and ["assistant"]. *)
Inductive Role : Type := user | assistant.

Record message : Type := Message { role : Role; content : str }.

(** [st.session_state] once both keys exist. *)
Record session_state : Type := Session {
  messages : list message;     (* st.session_state.messages *)
  user_input : str             (* st.session_state.user_input *)
}.

(** [st.session_state] as a run finds it: a key may be missing. *)
Record session_store : Type := Store {
  stored_messages : option (list message);
  stored_user_input : option str
}.

(** What the script puts on the page.  Layout ([st.columns]) and the
    transient [st.spinner] are not recorded. *)
Inductive element : Type :=
| PageConfig (page_title : str)
| Style
| Title (body : str)
| Markdown (body : str)
| ChatMessage (name : Role) (body : str)   (* st.markdown inside st.chat_message *)
| Write (body : str)
| Warning (body : str)
| Error (body : str)
| Audio (text : str).

Record world : Type := World {
  session : session_state;
  page : list element;         (* elements shown, oldest first *)
  model_calls : list str       (* prompts given to model.invoke, oldest first *)
}.

(** How a piece of script ends.  [st.rerun()] raises a control exception
    that is not below [Exception], so no [except Exception] catches it. *)
Inductive outcome (A : Type) : Type :=
| Done (a : A)
| Raise (e : exn)
| Rerun.
Arguments Done {A} a.
Arguments Raise {A} e.
Arguments Rerun {A}.

Definition script (A : Type) : Type := world -> outcome A * world.

Definition ret {A} (a : A) : script A := fun w => (Done a, w).

Definition bind {A B} (m : script A) (k : A -> script B) : script B :=
  fun w =>
    match m w with
    | (Done a, w') => k a w'
    | (Raise e, w') => (Raise e, w')
    | (Rerun, w') => (Rerun, w')
    end.

Definition raise {A} (e : exn) : script A := fun w => (Raise e, w).

(** [try: body / except Exception as e: handler e]. *)
Definition try_except {A} (body : script A) (handler : exn -> script A)
  : script A :=
  fun w =>
    match body w with
    | (Raise e, w') => handler e w'
    | r => r
    end.

(** [try: body] with [except] clauses for some classes only: [handlers e]
    is [None] when no clause matches [e], which then goes on upwards. *)
Definition try_except_on {A} (body : script A)
    (handlers : exn -> option (script A)) : script A :=
  fun w =>
    match body w with
    | (Raise e, w') =>
        match handlers e with
        | Some h => h w'
        | None => (Raise e, w')
        end
    | r => r
    end.

(** A call into a library whose outcome is given. *)
Definition call {A} (r : result A) : script A :=
  fun w =>
    match r with
    | Returns a => (Done a, w)
    | Raises e => (Raise e, w)
    end.

Definition show (e : element) : script unit :=
  fun w => (Done tt, World (session w) (page w ++ [e]) (model_calls w)).

Definition st_write (body : str) : script unit := show (Write body).
Definition st_warning (body : str) : script unit := show (Warning body).
Definition st_error (body : str) : script unit := show (Error body).
Definition st_markdown (body : str) : script unit := show (Markdown body).
Definition st_title (body : str) : script unit := show (Title body).

Definition st_rerun {A} : script A := fun w => (Rerun, w).

Definition get_session : script session_state :=
  fun w => (Done (session w), w).

(** [st.session_state.messages.append(m)]. *)
Definition messages_append (m : message) : script unit :=
  fun w =>
    (Done tt,
     World (Session (messages (session w) ++ [m]) (user_input (session w)))
           (page w) (model_calls w)).

(** [st.session_state.messages = ms]. *)
Definition set_messages (ms : list message) : script unit :=
  fun w =>
    (Done tt,
     World (Session ms (user_input (session w))) (page w) (model_calls w)).

(** [st.session_state.user_input = s]. *)
Definition set_user_input (s : str) : script unit :=
  fun w =>
    (Done tt,
     World (Session (messages (session w)) s) (page w) (model_calls w)).

(** [model.invoke(prompt)]: the call is recorded, the backend answers. *)
Definition model_invoke (model : str -> result value) (prompt : str)
  : script value :=
  fun w =>
    call (model prompt)
         (World (session w) (page w) (model_calls w ++ [prompt])).

Module Notations.
Declare Scope script_scope.
Delimit Scope script_scope with script.
Notation "x <- m ;; k" := (bind m (fun x => k))
  (at level 61, m at next level, right associativity) : script_scope.
Notation "m ;; k" := (bind m (fun _ => k))
  (at level 61, right associativity) : script_scope.
End Notations.

End St.

(** ** app.py *)

Module App.
Import Py St St.Notations.
Local Open Scope script_scope.

(** *** The services behind the program *)

(** Captured audio, as the recogniser receives it. *)
Definition audio := list Z.

(** The [speech_recognition] calls of one capture attempt. *)
Record recognizer : Type := Recognizer {
  Microphone : result unit;                 (* sr.Microphone(), entered *)
  adjust_for_ambient_noise : result unit;
  listen : result audio;                    (* listen(source, timeout=5) *)
  recognize_google : audio -> result str
}.

(** [model.invoke]: the backend's answer to a prompt. *)
Definition llm := str -> result value.

(** The temporary file, [gTTS(text, lang, slow=False)] and [tts.save]. *)
Definition synthesizer := str -> str -> result unit.

(** *** Text to speech (lines 10-20) *)

Definition text_to_speech (gTTS : synthesizer) (text language : str)
  : script unit :=
  try_except
    (call (gTTS text language) ;;
     show (Audio text))
    (fun e =>
       st_error (lit "Error in text-to-speech conversion: " ++ msg e)).

(** *** Speech to text (lines 23-42) *)

(** [sr.Recognizer()] on line 27 only fills in an object and is taken not to
    raise.  The value returned is the recognised text, or [None]. *)
Definition speech_to_text (sr : recognizer) : script (option str) :=
  try_except
    (call (Microphone sr) ;;
     st_write (lit "Listening... Speak now!") ;;
     call (adjust_for_ambient_noise sr) ;;
     audio <- call (listen sr) ;;
     try_except_on
       (text <- call (recognize_google sr audio) ;;
        ret (Some text))
       (fun e =>
          match cls e with
          | UnknownValueError =>
              Some (st_warning (lit "Sorry, I could not understand the audio.") ;;
                    ret None)
          | RequestError =>
              Some (st_error
                      (lit "Could not request results from Google Speech Recognition service; "
                       ++ msg e) ;;
                    ret None)
          | _ => None
          end))
    (fun e =>
       st_error (lit "Error in speech-to-text conversion: " ++ msg e) ;;
       ret None).

(** *** The model client (lines 45-95) *)

Definition SYSTEM_PROMPT_lines : list str :=
  [
    lit "You are an AI financial analyst. Maintain context and provide insightful responses. " ++ dq;
    lit "    " ++ dq ++ lit "Do not display the thinking process, internal thoughts, or reasoning. " ++ dq;
    lit "    " ++ dq ++ lit "Only return the final response directly to the user." ++ dq;
    lit "    You are an advanced AI financial analyst. Your task is to generate in-depth financial insights, trend analysis, and investment strategies based on user inputs. Follow the structured format below and provide actionable recommendations:";
    [];
    lit "1. **Market Trend Analysis**  ";
    lit "   - Analyze market trends based on historical data, economic indicators, and global events.  ";
    lit "   - Identify emerging opportunities and potential risks.  ";
    lit "   - Provide key insights, trend forecasts, and strategic implications.";
    [];
    lit "2. **Company-Specific Financial Projection**  ";
    lit "   - Assess a company's past financial performance and project future growth.  ";
    lit "   - Include revenue forecasts, profitability analysis, and risk assessments.  ";
    lit "   - Offer strategic recommendations based on industry trends.";
    [];
    lit "3. **Investment Strategy Recommendations**  ";
    lit "   - Suggest an optimal investment strategy based on current market conditions and investor risk profile.  ";
    lit "   - Provide asset allocation strategies and diversification recommendations.  ";
    lit "   - Highlight key risks and how to mitigate them.";
    [];
    lit "4. **Comprehensive Financial Analysis Report**  ";
    lit "   - Generate a detailed report based on provided financial data, market conditions, and strategic goals.  ";
    lit "   - Include key insights, risk assessment, and actionable recommendations.  ";
    lit "   - Format the report in structured sections (Executive Summary, Market Analysis, Company Performance, Risk Assessment, Investment Strategy, Conclusion).";
    [];
    lit "Be concise, data-driven, and ensure responses are structured for clarity and decision-making."
  ].

(** The triple-quoted literal of lines 46-72: each line with its newline. *)
Definition SYSTEM_PROMPT : str :=
  concat (map (fun l => l ++ nl) SYSTEM_PROMPT_lines).

(** The two literals [get_ai_response] returns when it has no answer. *)
Definition fallback_message : str :=
  lit "I apologize, but I couldn't generate a proper response at this time.".

Definition error_apology : str :=
  lit "I apologize, but there was an error generating the response. Please try again.".

(** [response.strip()]: only a [str] has the method. *)
Definition py_strip (response : value) : script str :=
  match response with
  | PyStr s => ret (strip s)
  | v =>
      raise (Exn AttributeError
               (lit "'" ++ type_name v
                ++ lit "' object has no attribute 'strip'"))
  end.

(** Line 81: the f-string around the user's text. *)
Definition full_prompt (prompt : str) : str :=
  SYSTEM_PROMPT ++ nl ++ nl ++ lit "User Query: " ++ prompt.

Definition get_ai_response (model : llm) (prompt : str) : script str :=
  try_except
    (response <- model_invoke model (full_prompt prompt) ;;
     if negb (truthy response) || negb (isinstance_str response)
     then ret fallback_message
     else
       response <- py_strip response ;;
       ret response)
    (fun e =>
       st_error (lit "Error details: " ++ msg e) ;;
       ret error_apology).

(** *** The page script (lines 97-183) *)

(** What one run of [main] reads: the widgets and the services. *)
Record inputs : Type := Inputs {
  text_input : str;          (* st.text_input("Ask your financial question...") *)
  mic_button : bool;         (* st.button of the microphone *)
  tts_button : bool;         (* st.button("... Listen to Response") *)
  clear_button : bool;       (* st.button("Generate Chat") *)
  sr : recognizer;
  model : llm;
  gTTS : synthesizer
}.

(** Lines 98-122. *)
Definition main_header : script unit :=
  show (PageConfig (lit "AI Financial Analyst")) ;;
  show Style ;;
  st_title ([0x1F4B9%N] ++ lit " AI Financial Analyst") ;;
  st_markdown
    (lit "Your intelligent companion for financial analysis and investment strategies.").

(** Lines 125-130: a missing key gets its initial value. *)
Definition init_session_state (s : session_store) : session_state :=
  Session
    (match stored_messages s with Some ms => ms | None => [] end)
    (match stored_user_input s with Some u => u | None => [] end).

(** Lines 133-135. *)
Fixpoint display_messages (ms : list message) : script unit :=
  match ms with
  | [] => ret tt
  | m :: rest =>
      show (ChatMessage (role m) (content m)) ;;
      display_messages rest
  end.

Definition main_display_history : script unit :=
  s <- get_session ;;
  display_messages (messages s).

(** Lines 146-154: the microphone button. *)
Definition main_voice_button (clicked : bool) (sr : recognizer)
  : script unit :=
  if clicked then
    spoken_text <- speech_to_text sr ;;
    match spoken_text with
    | Some text =>
        if nonempty text then
          set_user_input text ;;
          st_rerun
        else ret tt
    | None => ret tt
    end
  else ret tt.

(** Lines 156-177: one question/answer cycle on the text box's value. *)
Definition main_process_user_input (model : llm) (gTTS : synthesizer)
    (tts_clicked : bool) (user_input : str) : script unit :=
  if nonempty user_input then
    messages_append (Message user user_input) ;;
    ai_response <- get_ai_response model user_input ;;
    messages_append (Message assistant ai_response) ;;
    show (ChatMessage assistant ai_response) ;;
    (if tts_clicked then text_to_speech gTTS ai_response (lit "en")
     else ret tt) ;;
    set_user_input []
  else ret tt.

(** Lines 179-183: the button that clears the chat. *)
Definition main_clear_button (clicked : bool) : script unit :=
  if clicked then
    set_messages [] ;;
    set_user_input [] ;;
    st_rerun
  else ret tt.

Definition main_script (i : inputs) : script unit :=
  main_header ;;
  main_display_history ;;
  main_voice_button (mic_button i) (sr i) ;;
  main_process_user_input (model i) (gTTS i) (tts_button i) (text_input i) ;;
  main_clear_button (clear_button i).

(** One run of [main] on the session state left by the run before: the
    page starts empty and no prompt has been sent yet. *)
Definition main (i : inputs) (store : session_store) : outcome unit * world :=
  main_script i (World (init_session_state store) [] []).

End App.

(** * Properties *)

Import Py St App.

(** ** Vocabulary of the statements *)

(** A result that is empty or not text, in the words of the
    specification. *)
Definition empty_or_non_text (v : value) : bool :=
  match v with
  | PyStr [] => true
  | PyStr (_ :: _) => false
  | _ => true
  end.

(** The model call fails: the backend raises, or its result is malformed. *)
Definition model_call_fails (r : result value) : bool :=
  match r with
  | Raises _ => true
  | Returns v => empty_or_non_text v
  end.

(** The capture goes through and the recogniser raises [e]. *)
Definition recognition_raises (sr : recognizer) (e : exn) : Prop :=
  Microphone sr = Returns tt
  /\ adjust_for_ambient_noise sr = Returns tt
  /\ exists a, listen sr = Returns a /\ recognize_google sr a = Raises e.

(** A recogniser that captures [a] and then raises [e]. *)
Definition failing_recognizer (a : audio) (e : exn) : recognizer :=
  Recognizer (Returns tt) (Returns tt) (Returns a) (fun _ => Raises e).

(** The capture goes through and the recogniser returns [text]. *)
Definition recognition_returns (sr : recognizer) (text : str) : Prop :=
  Microphone sr = Returns tt
  /\ adjust_for_ambient_noise sr = Returns tt
  /\ exists a, listen sr = Returns a /\ recognize_google sr a = Returns text.

(** A recogniser that captures [a] and recognises [text] in it. *)
Definition working_recognizer (a : audio) (text : str) : recognizer :=
  Recognizer (Returns tt) (Returns tt) (Returns a) (fun _ => Returns text).

(** A recogniser whose microphone cannot be opened. *)
Definition no_microphone (e : exn) : recognizer :=
  Recognizer (Raises e) (Returns tt) (Returns []) (fun _ => Returns []).

(** A history made of question/answer pairs: a user turn that is not
    empty, then an assistant turn, and so on. *)
Fixpoint paired (ms : list message) : bool :=
  match ms with
  | [] => true
  | question :: rest =>
      match rest with
      | [] => false
      | answer :: rest' =>
          match role question, role answer with
          | user, assistant => nonempty (content question) && paired rest'
          | _, _ => false
          end
      end
  end.

(** The inputs of a run with no request to speak the reply and a synthesis
    service that works. *)
Definition run_inputs (text : str) (mic clear : bool) (sr : recognizer)
    (model : llm) : inputs :=
  Inputs text mic false clear sr model (fun _ _ => Returns tt).


(** A backend that answers every prompt with the same text. *)
Definition answers (reply : str) : llm := fun _ => Returns (PyStr reply).

(** A synthesis service that works. *)
Definition speaks : synthesizer := fun _ _ => Returns tt.

(** A session at its start. *)
Definition fresh : world := World (Session [] []) [] [].

Arguments full_prompt : simpl never.
Arguments SYSTEM_PROMPT : simpl never.

Ltac run_speech_to_text :=
  unfold speech_to_text, try_except, try_except_on, bind, call,
         st_write, st_warning, st_error, show, ret.

(** ** Whitespace stripping *)

Lemma lstrip_split (s : str) :
  exists l, s = l ++ lstrip s /\ forallb isspace l = true.
Proof.
  induction s as [|c t [l [Ht Hl]]]; simpl.
  - exists []. split; reflexivity.
  - destruct (isspace c) eqn:Hc.
    + exists (c :: l). simpl. rewrite Hc, Hl. split; [|reflexivity].
      f_equal. exact Ht.
    + exists []. split; reflexivity.
Qed.

Lemma lstrip_head (s : str) :
  match lstrip s with
  | [] => True
  | c :: _ => isspace c = false
  end.
Proof.
  induction s as [|c t IH]; simpl; [exact I|].
  destruct (isspace c) eqn:Hc; [exact IH | exact Hc].
Qed.

Lemma lstrip_spaces (s : str) :
  forallb isspace s = true -> lstrip s = [].
Proof.
  induction s as [|c t IH]; simpl; [reflexivity|].
  intros H. apply andb_prop in H. destruct H as [Hc Ht].
  rewrite Hc. exact (IH Ht).
Qed.

Lemma forallb_rev {A} (f : A -> bool) (l : list A) :
  forallb f (rev l) = forallb f l.
Proof.
  induction l as [|a l IH]; simpl; [reflexivity|].
  rewrite forallb_app, IH. simpl. rewrite andb_true_r. apply andb_comm.
Qed.

Lemma rstrip_split (s : str) :
  exists r, s = rstrip s ++ r /\ forallb isspace r = true.
Proof.
  unfold rstrip. destruct (lstrip_split (rev s)) as [l [Hs Hl]].
  exists (rev l). split.
  - rewrite <- rev_app_distr, <- Hs, rev_involutive. reflexivity.
  - rewrite forallb_rev. exact Hl.
Qed.

Lemma rstrip_last (s body : str) (c : N) :
  rstrip s = body ++ [c] -> isspace c = false.
Proof.
  unfold rstrip. intros H.
  assert (Hr : lstrip (rev s) = c :: rev body).
  { rewrite <- (rev_involutive (lstrip (rev s))), H, rev_app_distr.
    reflexivity. }
  pose proof (lstrip_head (rev s)) as Hh. rewrite Hr in Hh. exact Hh.
Qed.

(** Trailing characters go, the head stays: [rstrip] keeps a first
    character that is not whitespace. *)
Lemma lstrip_app_keep (a b : str) :
  lstrip a <> [] -> lstrip (a ++ b) = lstrip a ++ b.
Proof.
  induction a as [|c t IH]; simpl; [congruence|].
  destruct (isspace c); [exact IH | reflexivity].
Qed.

Lemma rstrip_cons_keep (c : N) (t : str) :
  isspace c = false -> exists t', rstrip (c :: t) = c :: t'.
Proof.
  intros Hc. unfold rstrip. simpl rev.
  destruct (lstrip (rev t)) as [|d u] eqn:Hl.
  - exists []. destruct (lstrip_split (rev t)) as [l [Ht Hsp]].
    rewrite Hl, app_nil_r in Ht. rewrite Ht.
    assert (Hn : lstrip (l ++ [c]) = [c]).
    { clear Ht. induction l as [|x l IH]; simpl.
      - rewrite Hc. reflexivity.
      - simpl in Hsp. apply andb_prop in Hsp. destruct Hsp as [Hx Hl'].
        rewrite Hx. exact (IH Hl'). }
    rewrite Hn. reflexivity.
  - rewrite lstrip_app_keep by (rewrite Hl; discriminate).
    rewrite Hl, rev_app_distr. simpl. eexists. reflexivity.
Qed.

(** [strip] removes a run of whitespace at each end and nothing else, and
    what is left neither starts nor ends with whitespace. *)
Lemma strip_spec (s : str) :
  (exists l r, s = l ++ strip s ++ r
               /\ forallb isspace l = true /\ forallb isspace r = true)
  /\ (forall c t, strip s = c :: t -> isspace c = false)
  /\ (forall t c, strip s = t ++ [c] -> isspace c = false).
Proof.
  unfold strip. split; [|split].
  - destruct (lstrip_split s) as [l [Hs Hl]].
    destruct (rstrip_split (lstrip s)) as [r [Hm Hr]].
    exists l, r. split; [|split; assumption].
    rewrite <- Hm. exact Hs.
  - intros c t H. pose proof (lstrip_head s) as Hh.
    destruct (lstrip s) as [|d u] eqn:Hl.
    + discriminate H.
    + destruct (rstrip_cons_keep d u Hh) as [t' Ht'].
      rewrite Ht' in H. injection H as -> _. exact Hh.
  - intros t c H. exact (rstrip_last _ _ _ H).
Qed.

Lemma strip_spaces (s : str) :
  forallb isspace s = true -> strip s = [].
Proof.
  intros H. unfold strip. rewrite (lstrip_spaces s H). reflexivity.
Qed.

(** ** Truth values *)

Lemma nonempty_true (s : str) : s <> [] -> nonempty s = true.
Proof. destruct s; [congruence | reflexivity]. Qed.

(** ** The model client, case by case *)

Section ModelClient.

Variable model : llm.
Variable prompt : str.

(** The backend raises: the exception text goes to the page, the second
    literal comes back. *)
Lemma get_ai_response_raises (e : exn) (w : world) :
  model (full_prompt prompt) = Raises e ->
  get_ai_response model prompt w =
    (Done error_apology,
     World (session w)
           (page w ++ [Error (lit "Error details: " ++ msg e)])
           (model_calls w ++ [full_prompt prompt])).
Proof.
  intros H. unfold get_ai_response, try_except, bind, model_invoke, call.
  rewrite H. reflexivity.
Qed.

(** The backend returns something falsy or not a string. *)
Lemma get_ai_response_invalid (v : value) (w : world) :
  model (full_prompt prompt) = Returns v ->
  negb (truthy v) || negb (isinstance_str v) = true ->
  get_ai_response model prompt w =
    (Done fallback_message,
     World (session w) (page w) (model_calls w ++ [full_prompt prompt])).
Proof.
  intros H Hv. unfold get_ai_response, try_except, bind, model_invoke, call.
  rewrite H, Hv. reflexivity.
Qed.

(** The backend returns a string that is not empty. *)
Lemma get_ai_response_text (s : str) (w : world) :
  model (full_prompt prompt) = Returns (PyStr s) ->
  s <> [] ->
  get_ai_response model prompt w =
    (Done (strip s),
     World (session w) (page w) (model_calls w ++ [full_prompt prompt])).
Proof.
  intros H Hs. unfold get_ai_response, try_except, bind, model_invoke, call.
  rewrite H. cbn [truthy isinstance_str].
  rewrite (nonempty_true s Hs). reflexivity.
Qed.

(** Whatever the backend does, the client returns a string, sends one
    prompt, touches no session state, and its answer does not depend on
    the world it runs in. *)
Lemma get_ai_response_reply :
  exists reply shown, forall w,
    get_ai_response model prompt w =
      (Done reply,
       World (session w) (page w ++ shown)
             (model_calls w ++ [full_prompt prompt])).
Proof.
  destruct (model (full_prompt prompt)) as [v|e] eqn:Hm.
  - destruct (negb (truthy v) || negb (isinstance_str v)) eqn:Hv.
    + exists fallback_message, []. intros w. rewrite app_nil_r.
      exact (get_ai_response_invalid v w Hm Hv).
    + apply orb_false_elim in Hv. destruct Hv as [Ht Hi].
      destruct v as [| | |s|]; try discriminate Hi.
      exists (strip s), []. intros w. rewrite app_nil_r.
      apply get_ai_response_text; [exact Hm|].
      intros ->. discriminate Ht.
  - exists error_apology, [Error (lit "Error details: " ++ msg e)].
    intros w. exact (get_ai_response_raises e w Hm).
Qed.

End ModelClient.

(** ** Text to speech never fails and only adds to the page *)

Lemma text_to_speech_page (gTTS : synthesizer) (text language : str) :
  exists shown, forall w,
    text_to_speech gTTS text language w =
      (Done tt, World (session w) (page w ++ shown) (model_calls w)).
Proof.
  unfold text_to_speech, try_except, bind, call.
  destruct (gTTS text language) as [[]|e].
  - exists [Audio text]. reflexivity.
  - eexists. intros w. reflexivity.
Qed.

(** ** One question/answer cycle *)

Lemma process_user_input_run (model : llm) (gTTS : synthesizer)
    (tts_clicked : bool) (text : str) :
  text <> [] ->
  exists reply shown spoken,
    (forall w,
       get_ai_response model text w =
         (Done reply,
          World (session w) (page w ++ shown)
                (model_calls w ++ [full_prompt text])))
    /\ forall w,
      main_process_user_input model gTTS tts_clicked text w =
        (Done tt,
         World (Session (messages (session w)
                           ++ [Message user text; Message assistant reply])
                        [])
               (page w ++ shown ++ [ChatMessage assistant reply] ++ spoken)
               (model_calls w ++ [full_prompt text])).
Proof.
  intros Ht.
  destruct (get_ai_response_reply model text) as [reply [shown Hr]].
  destruct (text_to_speech_page gTTS reply (lit "en")) as [spoken Hs].
  exists reply, shown, (if tts_clicked then spoken else []).
  split; [exact Hr|].
  intros w. unfold main_process_user_input.
  rewrite (nonempty_true text Ht).
  unfold bind at 1. unfold messages_append at 1.
  unfold bind at 1. rewrite Hr.
  unfold bind, messages_append, show, set_user_input; simpl.
  destruct tts_clicked.
  - rewrite Hs. simpl. rewrite <- !app_assoc. reflexivity.
  - unfold ret. simpl. rewrite <- ?app_assoc. reflexivity.
Qed.

Lemma process_user_input_cycle (model : llm) (gTTS : synthesizer)
    (tts_clicked : bool) (text : str) :
  text <> [] ->
  exists reply shown,
    (forall w, fst (get_ai_response model text w) = Done reply) /\
    forall w,
      main_process_user_input model gTTS tts_clicked text w =
        (Done tt,
         World (Session (messages (session w)
                           ++ [Message user text; Message assistant reply])
                        [])
               (page w ++ shown)
               (model_calls w ++ [full_prompt text])).
Proof.
  intros Ht.
  destruct (process_user_input_run model gTTS tts_clicked text Ht)
    as [reply [shown [spoken [Hr Hc]]]].
  exists reply, (shown ++ [ChatMessage assistant reply] ++ spoken).
  split; [|exact Hc].
  intros w. rewrite Hr. reflexivity.
Qed.

(** ** Substrings *)

Lemma startswith_shorter (p x : str) :
  forall s, startswith s (p ++ x) = true -> startswith s p = true.
Proof.
  induction p as [|a p IH]; intros s H; [destruct s; reflexivity|].
  destruct s as [|b s]; simpl in *; [discriminate|].
  apply andb_prop in H. destruct H as [Hab Hs].
  rewrite Hab. exact (IH s Hs).
Qed.

Lemma startswith_longer (p r : str) :
  forall s, startswith s p = true -> startswith (s ++ r) p = true.
Proof.
  induction p as [|a p IH]; intros s H; [destruct (s ++ r); reflexivity|].
  destruct s as [|b s]; simpl in *; [discriminate|].
  apply andb_prop in H. destruct H as [Hab Hs].
  rewrite Hab. exact (IH s Hs).
Qed.

Lemma contains_shorter (p x : str) :
  forall s, contains s (p ++ x) = true -> contains s p = true.
Proof.
  induction s as [|b s IH]; intros H.
  - simpl in *. rewrite orb_false_r in *.
    exact (startswith_shorter p x [] H).
  - cbn [contains] in *. apply orb_prop in H. destruct H as [H|H].
    + rewrite (startswith_shorter p x _ H). reflexivity.
    + rewrite (IH H). apply orb_true_r.
Qed.

Lemma contains_app_after (p r : str) :
  forall s, contains s p = true -> contains (s ++ r) p = true.
Proof.
  induction s as [|b s IH]; intros H.
  - simpl in H. rewrite orb_false_r in H.
    destruct p; [destruct r; reflexivity | discriminate].
  - change ((b :: s) ++ r) with (b :: (s ++ r)).
    cbn [contains] in *. apply orb_prop in H. destruct H as [H|H].
    + change (b :: (s ++ r)) with ((b :: s) ++ r).
      rewrite (startswith_longer p r _ H). reflexivity.
    + rewrite (IH H). apply orb_true_r.
Qed.

Lemma contains_app_before (p l : str) :
  forall s, contains s p = true -> contains (l ++ s) p = true.
Proof.
  intros s H. induction l as [|b l IH]; [exact H|].
  change ((b :: l) ++ s) with (b :: (l ++ s)).
  cbn [contains]. rewrite IH. apply orb_true_r.
Qed.

(** What occurs in the stripped string occurs in the string. *)
Lemma contains_strip (s p : str) :
  contains (strip s) p = true -> contains s p = true.
Proof.
  intros H. destruct (strip_spec s) as [[l [r [Hs _]]] _].
  rewrite Hs. apply contains_app_before, contains_app_after. exact H.
Qed.

(** ** The question/answer cycle *)

(** C1.  For every input text that is not empty, one cycle appends exactly
    two turns to the history, in this order: a user turn holding the input
    text, then an assistant turn holding what the model client returned.
    The cycle ends normally. *)
Theorem submit_appends_user_then_assistant
    (model : llm) (gTTS : synthesizer) (tts_clicked : bool)
    (text : str) (w : world) :
  text <> [] ->
  exists reply,
    (forall w0, fst (get_ai_response model text w0) = Done reply)
    /\ fst (main_process_user_input model gTTS tts_clicked text w) = Done tt
    /\ messages (session
         (snd (main_process_user_input model gTTS tts_clicked text w)))
       = messages (session w)
           ++ [Message user text; Message assistant reply]
    /\ length (messages (session
         (snd (main_process_user_input model gTTS tts_clicked text w))))
       = length (messages (session w)) + 2.
Proof.
  intros Ht.
  destruct (process_user_input_cycle model gTTS tts_clicked text Ht)
    as [reply [shown [Hr Hc]]].
  exists reply. rewrite (Hc w). cbn [fst snd session messages].
  repeat split; [exact Hr|].
  rewrite length_app. reflexivity.
Qed.

Lemma submit_appends_user_then_assistant_witness :
  lit "What is a bond?" <> []
  /\ exists reply,
       (forall w0,
          fst (get_ai_response (answers (lit "A bond is a debt instrument."))
                 (lit "What is a bond?") w0) = Done reply)
       /\ fst (main_process_user_input
                 (answers (lit "A bond is a debt instrument.")) speaks false
                 (lit "What is a bond?") fresh) = Done tt
       /\ messages (session (snd (main_process_user_input
                 (answers (lit "A bond is a debt instrument.")) speaks false
                 (lit "What is a bond?") fresh)))
          = messages (session fresh)
              ++ [Message user (lit "What is a bond?");
                  Message assistant reply]
       /\ length (messages (session (snd (main_process_user_input
                 (answers (lit "A bond is a debt instrument.")) speaks false
                 (lit "What is a bond?") fresh))))
          = length (messages (session fresh)) + 2.
Proof.
  assert (H : lit "What is a bond?" <> []) by (vm_compute; discriminate).
  split; [exact H|].
  exact (submit_appends_user_then_assistant
           (answers (lit "A bond is a debt instrument.")) speaks false
           (lit "What is a bond?") fresh H).
Defined.

(** The scenario of the specification, run. *)
Example bond_scenario :
  messages (session (snd (main_process_user_input
     (answers (lit "A bond is a debt instrument.")) speaks false
     (lit "What is a bond?") fresh)))
  = [Message user (lit "What is a bond?");
     Message assistant (lit "A bond is a debt instrument.")].
Proof. vm_compute. reflexivity. Qed.

(** C2 as stated does not hold: a text of one blank is empty after
    trimming, yet the cycle runs on it, adding two turns and calling the
    model. *)
Lemma submit_blank_text_is_processed :
  ~ (forall (model : llm) (gTTS : synthesizer) (tts_clicked : bool)
            (text : str) (w : world),
       strip text = [] ->
       messages (session
         (snd (main_process_user_input model gTTS tts_clicked text w)))
       = messages (session w)
       /\ model_calls
            (snd (main_process_user_input model gTTS tts_clicked text w))
          = model_calls w).
Proof.
  intros H.
  specialize (H (answers (lit "ok")) speaks false (lit " ") fresh
                (eq_refl : strip (lit " ") = [])).
  destruct H as [H _]. vm_compute in H. discriminate H.
Qed.

(** C2, amended.  For the empty input text the cycle does nothing at all:
    no turn is added, the model is not called, and nothing else in the
    session or on the page changes. *)
Theorem submit_empty_is_noop
    (model : llm) (gTTS : synthesizer) (tts_clicked : bool) (w : world) :
  main_process_user_input model gTTS tts_clicked [] w = (Done tt, w)
  /\ messages (session
       (snd (main_process_user_input model gTTS tts_clicked [] w)))
     = messages (session w)
  /\ model_calls (snd (main_process_user_input model gTTS tts_clicked [] w))
     = model_calls w.
Proof. repeat split. Qed.

(** The scenario of the specification: the empty text on a session at its
    start leaves the history empty. *)
Example empty_scenario :
  messages (session (snd (main_process_user_input
     (answers (lit "unused")) speaks false [] fresh))) = [].
Proof. reflexivity. Qed.

(** ** What the model client returns *)

(** C3 at the input where the code departs from it: the backend answers
    with one blank, which passes the check on line 86 and is stripped on
    line 90, so the client returns the empty string. *)
Theorem get_ai_response_blank_reply_is_empty (prompt : str) (w : world) :
  fst (get_ai_response (answers (lit " ")) prompt w) = Done [].
Proof.
  rewrite (get_ai_response_text (answers (lit " ")) prompt (lit " ") w).
  - reflexivity.
  - reflexivity.
  - vm_compute. discriminate.
Qed.

(** X18.  Unless the backend answers with a string that is not empty and
    strips to nothing, the client's reply is not empty: this holds when
    the backend raises, when it returns nothing usable, and when it
    returns any other text. *)
Lemma get_ai_response_reply_nonempty (model : llm) (prompt : str) (w : world) :
  (forall s, model (full_prompt prompt) = Returns (PyStr s) ->
             s <> [] -> strip s <> []) ->
  exists reply,
    fst (get_ai_response model prompt w) = Done reply /\ reply <> [].
Proof.
  intros Hblank.
  destruct (model (full_prompt prompt)) as [v|e] eqn:Hm.
  - destruct (negb (truthy v) || negb (isinstance_str v)) eqn:Hv.
    + rewrite (get_ai_response_invalid model prompt v w Hm Hv).
      exists fallback_message. split; [reflexivity|].
      vm_compute. discriminate.
    + apply orb_false_elim in Hv. destruct Hv as [Ht Hi].
      destruct v as [| | |s|]; try discriminate Hi.
      assert (Hs : s <> []) by (intros ->; discriminate Ht).
      rewrite (get_ai_response_text model prompt s w Hm Hs).
      exists (strip s). split; [reflexivity|].
      exact (Hblank s eq_refl Hs).
  - rewrite (get_ai_response_raises model prompt e w Hm).
    exists error_apology. split; [reflexivity|].
    vm_compute. discriminate.
Qed.

(** ** Model failures *)

(** The check on line 86 is that test. *)
Lemma line_86_guard (v : value) :
  negb (truthy v) || negb (isinstance_str v) = empty_or_non_text v.
Proof.
  destruct v as [|b|z|s|l]; simpl;
    try reflexivity; try apply orb_true_r.
  destruct s; reflexivity.
Qed.

Lemma apologies_differ : error_apology <> fallback_message.
Proof. vm_compute. discriminate. Qed.

(** C4 as stated does not hold: no single string is the assistant turn
    of every failed model call.  A backend that raises and a backend that
    returns [None] lead to two different turns. *)
Lemma model_failures_have_no_common_apology :
  ~ (exists apology : str,
       forall (model : llm) (gTTS : synthesizer) (tts_clicked : bool)
              (text : str) (w : world),
         text <> [] ->
         model_call_fails (model (full_prompt text)) = true ->
         messages (session
           (snd (main_process_user_input model gTTS tts_clicked text w)))
         = messages (session w)
             ++ [Message user text; Message assistant apology]).
Proof.
  intros [apology H].
  assert (Ht : lit "hi" <> []) by (vm_compute; discriminate).
  pose proof (H (fun _ => Raises (Exn OtherError (lit "connection refused")))
                speaks false (lit "hi") fresh Ht eq_refl) as Hraise.
  pose proof (H (fun _ => Returns PyNone)
                speaks false (lit "hi") fresh Ht eq_refl) as Hnone.
  vm_compute in Hraise. vm_compute in Hnone.
  injection Hraise as Hraise. injection Hnone as Hnone.
  rewrite <- Hraise in Hnone. discriminate Hnone.
Qed.

(** C4, amended.  For every failed model call the cycle ends normally and
    the history gains the user turn and an assistant turn holding a fixed
    apology: one literal when the backend raises, another when its result
    is empty or not text. *)
Theorem submit_model_failure_appends_apology
    (model : llm) (gTTS : synthesizer) (tts_clicked : bool)
    (text : str) (w : world) :
  text <> [] ->
  model_call_fails (model (full_prompt text)) = true ->
  fst (main_process_user_input model gTTS tts_clicked text w) = Done tt
  /\ messages (session
       (snd (main_process_user_input model gTTS tts_clicked text w)))
     = messages (session w)
         ++ [Message user text;
             Message assistant
               match model (full_prompt text) with
               | Raises _ =>
                   lit "I apologize, but there was an error generating the response. Please try again."
               | Returns _ =>
                   lit "I apologize, but I couldn't generate a proper response at this time."
               end].
Proof.
  intros Ht Hf.
  destruct (process_user_input_cycle model gTTS tts_clicked text Ht)
    as [reply [shown [Hr Hc]]].
  rewrite (Hc w). cbn [fst snd session messages]. split; [reflexivity|].
  do 3 f_equal. specialize (Hr w).
  destruct (model (full_prompt text)) as [v|e] eqn:Hm.
  - simpl in Hf. rewrite <- line_86_guard in Hf.
    rewrite (get_ai_response_invalid model text v w Hm Hf) in Hr.
    injection Hr as <-. reflexivity.
  - rewrite (get_ai_response_raises model text e w Hm) in Hr.
    injection Hr as <-. reflexivity.
Qed.

Lemma submit_model_failure_appends_apology_witness :
  lit "What is a bond?" <> []
  /\ model_call_fails
       ((fun _ => Raises (Exn OtherError (lit "connection refused")))
          (full_prompt (lit "What is a bond?"))) = true
  /\ fst (main_process_user_input
            (fun _ => Raises (Exn OtherError (lit "connection refused")))
            speaks false (lit "What is a bond?") fresh) = Done tt
  /\ messages (session (snd (main_process_user_input
            (fun _ => Raises (Exn OtherError (lit "connection refused")))
            speaks false (lit "What is a bond?") fresh)))
     = messages (session fresh)
         ++ [Message user (lit "What is a bond?");
             Message assistant
               (lit "I apologize, but there was an error generating the response. Please try again.")].
Proof.
  assert (H : lit "What is a bond?" <> []) by (vm_compute; discriminate).
  split; [exact H|]. split; [reflexivity|].
  exact (submit_model_failure_appends_apology
           (fun _ => Raises (Exn OtherError (lit "connection refused")))
           speaks false (lit "What is a bond?") fresh H eq_refl).
Defined.

(** ** The prompt and the preamble *)

Lemma preamble_not_in_apologies :
  contains fallback_message SYSTEM_PROMPT = false
  /\ contains error_apology SYSTEM_PROMPT = false.
Proof. split; vm_compute; reflexivity. Qed.

(** C5.  For every submitted input text the one prompt sent to the model is
    the preamble, then a blank line and ["User Query: "], then the input
    text.  The preamble is not stored in the history: the cycle stores the
    input text and the client's reply, so when the preamble occurs neither
    in the turns already there, nor in the input text, nor in what the
    backend returns, it occurs in no turn afterwards. *)
Theorem prompt_is_preamble_then_query
    (model : llm) (gTTS : synthesizer) (tts_clicked : bool)
    (text : str) (w : world) :
  text <> [] ->
  model_calls (snd (main_process_user_input model gTTS tts_clicked text w))
  = model_calls w
      ++ [SYSTEM_PROMPT ++ [10; 10]%N ++ lit "User Query: " ++ text]
  /\ ((forall m, In m (messages (session w)) ->
                 contains (content m) SYSTEM_PROMPT = false) ->
      contains text SYSTEM_PROMPT = false ->
      (forall s, model (full_prompt text) = Returns (PyStr s) ->
                 contains s SYSTEM_PROMPT = false) ->
      forall m,
        In m (messages (session
          (snd (main_process_user_input model gTTS tts_clicked text w)))) ->
        contains (content m) SYSTEM_PROMPT = false).
Proof.
  intros Ht.
  destruct (process_user_input_cycle model gTTS tts_clicked text Ht)
    as [reply [shown [Hr Hc]]].
  rewrite (Hc w). cbn [fst snd session messages model_calls].
  split; [reflexivity|].
  intros Hold Htext Hback m Hin.
  apply in_app_or in Hin. destruct Hin as [Hin|[<-|[<-|[]]]].
  - exact (Hold m Hin).
  - exact Htext.
  - cbn [content]. specialize (Hr w).
    destruct (model (full_prompt text)) as [v|e] eqn:Hm.
    + destruct (negb (truthy v) || negb (isinstance_str v)) eqn:Hv.
      * rewrite (get_ai_response_invalid model text v w Hm Hv) in Hr.
        injection Hr as <-. apply preamble_not_in_apologies.
      * apply orb_false_elim in Hv. destruct Hv as [Hv Hi].
        destruct v as [| | |s|]; try discriminate Hi.
        assert (Hs : s <> []) by (intros ->; discriminate Hv).
        rewrite (get_ai_response_text model text s w Hm Hs) in Hr.
        injection Hr as <-.
        destruct (contains (strip s) SYSTEM_PROMPT) eqn:Hc'; [|reflexivity].
        apply contains_strip in Hc'. rewrite (Hback s eq_refl) in Hc'.
        discriminate Hc'.
    + rewrite (get_ai_response_raises model text e w Hm) in Hr.
      injection Hr as <-. apply preamble_not_in_apologies.
Qed.

Lemma prompt_is_preamble_then_query_witness :
  lit "What is a bond?" <> []
  /\ model_calls (snd (main_process_user_input
        (answers (lit "A bond is a debt instrument.")) speaks false
        (lit "What is a bond?") fresh))
     = model_calls fresh
         ++ [SYSTEM_PROMPT ++ [10; 10]%N ++ lit "User Query: "
             ++ lit "What is a bond?"]
  /\ forall m,
       In m (messages (session (snd (main_process_user_input
         (answers (lit "A bond is a debt instrument.")) speaks false
         (lit "What is a bond?") fresh)))) ->
       contains (content m) SYSTEM_PROMPT = false.
Proof.
  assert (H : lit "What is a bond?" <> []) by (vm_compute; discriminate).
  split; [exact H|].
  destruct (prompt_is_preamble_then_query
              (answers (lit "A bond is a debt instrument.")) speaks false
              (lit "What is a bond?") fresh H) as [Hcalls Hstored].
  split; [exact Hcalls|].
  apply Hstored.
  - intros m [].
  - vm_compute. reflexivity.
  - intros s Hs. injection Hs as <-. vm_compute. reflexivity.
Defined.

(** ** Clearing the chat *)

(** C6.  Whatever the history and the pending input are, the clear button
    leaves both empty; it raises nothing, and ends the run by asking for a
    rerun. *)
Theorem clear_button_empties_session (w : world) :
  main_clear_button true w
  = (Rerun, World (Session [] []) (page w) (model_calls w))
  /\ messages (session (snd (main_clear_button true w))) = []
  /\ user_input (session (snd (main_clear_button true w))) = []
  /\ forall e, fst (main_clear_button true w) <> Raise e.
Proof.
  repeat split. intros e H. discriminate H.
Qed.

(** ** The speech adapter *)

Lemma failing_recognizer_raises (a : audio) (e : exn) :
  recognition_raises (failing_recognizer a e) e.
Proof.
  repeat split. exists a. split; reflexivity.
Qed.

(** The adapter always returns, and touches neither the session state nor
    the model. *)
Lemma speech_to_text_returns (sr : recognizer) :
  exists spoken_text shown, forall w,
    speech_to_text sr w =
      (Done spoken_text,
       World (session w) (page w ++ shown) (model_calls w)).
Proof.
  run_speech_to_text.
  destruct (Microphone sr) as [[]|e1];
    [destruct (adjust_for_ambient_noise sr) as [[]|e2];
       [destruct (listen sr) as [a|e3];
          [destruct (recognize_google sr a) as [t|[[] m]]|]|]|];
    eexists; eexists; intros w; simpl; rewrite <- ?app_assoc; reflexivity.
Qed.

(** Audio that cannot be understood: a warning, and [None]. *)
Lemma speech_to_text_no_match (sr : recognizer) (e : exn) (w : world) :
  recognition_raises sr e ->
  cls e = UnknownValueError ->
  speech_to_text sr w =
    (Done None,
     World (session w)
           (page w ++ [Write (lit "Listening... Speak now!");
                       Warning (lit "Sorry, I could not understand the audio.")])
           (model_calls w)).
Proof.
  intros [Hm [Hn [a [Hl Hr]]]] Hc. run_speech_to_text.
  rewrite Hm, Hn, Hl, Hr, Hc. simpl. rewrite <- app_assoc. reflexivity.
Qed.

(** The recognition service fails: an error with its text, and [None]. *)
Lemma speech_to_text_service_error (sr : recognizer) (e : exn) (w : world) :
  recognition_raises sr e ->
  cls e = RequestError ->
  speech_to_text sr w =
    (Done None,
     World (session w)
           (page w ++ [Write (lit "Listening... Speak now!");
                       Error (lit "Could not request results from Google Speech Recognition service; "
                              ++ msg e)])
           (model_calls w)).
Proof.
  intros [Hm [Hn [a [Hl Hr]]]] Hc. run_speech_to_text.
  rewrite Hm, Hn, Hl, Hr, Hc. simpl. rewrite <- app_assoc. reflexivity.
Qed.

(** C7 as stated does not hold: the caller gets the same value, [None],
    from a capture that was not understood and from one the service
    rejected. *)
Lemma no_match_and_service_error_return_alike :
  ~ (forall (sr1 sr2 : recognizer) (e1 e2 : exn) (w : world),
       recognition_raises sr1 e1 -> cls e1 = UnknownValueError ->
       recognition_raises sr2 e2 -> cls e2 = RequestError ->
       fst (speech_to_text sr1 w) <> fst (speech_to_text sr2 w)).
Proof.
  intros H.
  apply (H (failing_recognizer [] (Exn UnknownValueError []))
           (failing_recognizer [] (Exn RequestError (lit "recognition connection failed")))
           (Exn UnknownValueError [])
           (Exn RequestError (lit "recognition connection failed"))
           fresh);
    try reflexivity; apply failing_recognizer_raises.
Qed.

(** C7, amended.  The adapter never raises past its boundary: it always
    returns a value.  When the audio is not understood and when the
    service fails it returns the same value, [None]; the two cases differ
    only in what the adapter itself shows, a warning in the first and an
    error carrying the service's text in the second. *)
Theorem speech_to_text_failures_return_none (sr : recognizer) (w : world) :
  (exists spoken_text, fst (speech_to_text sr w) = Done spoken_text)
  /\ (forall e, recognition_raises sr e -> cls e = UnknownValueError ->
        fst (speech_to_text sr w) = Done None
        /\ page (snd (speech_to_text sr w))
           = page w ++ [Write (lit "Listening... Speak now!");
                        Warning (lit "Sorry, I could not understand the audio.")])
  /\ (forall e, recognition_raises sr e -> cls e = RequestError ->
        fst (speech_to_text sr w) = Done None
        /\ page (snd (speech_to_text sr w))
           = page w ++ [Write (lit "Listening... Speak now!");
                        Error (lit "Could not request results from Google Speech Recognition service; "
                               ++ msg e)]).
Proof.
  split; [|split].
  - destruct (speech_to_text_returns sr) as [v [shown H]].
    exists v. rewrite (H w). reflexivity.
  - intros e Hr Hc. rewrite (speech_to_text_no_match sr e w Hr Hc).
    split; reflexivity.
  - intros e Hr Hc. rewrite (speech_to_text_service_error sr e w Hr Hc).
    split; reflexivity.
Qed.

Lemma speech_to_text_failures_return_none_witness :
  recognition_raises
    (failing_recognizer [] (Exn RequestError (lit "recognition connection failed")))
    (Exn RequestError (lit "recognition connection failed"))
  /\ fst (speech_to_text
            (failing_recognizer [] (Exn RequestError (lit "recognition connection failed")))
            fresh) = Done None
  /\ page (snd (speech_to_text
            (failing_recognizer [] (Exn RequestError (lit "recognition connection failed")))
            fresh))
     = [Write (lit "Listening... Speak now!");
        Error (lit "Could not request results from Google Speech Recognition service; recognition connection failed")].
Proof.
  split; [apply failing_recognizer_raises|].
  destruct (speech_to_text_failures_return_none
              (failing_recognizer [] (Exn RequestError (lit "recognition connection failed")))
              fresh) as [_ [_ Hservice]].
  exact (Hservice (Exn RequestError (lit "recognition connection failed"))
           (failing_recognizer_raises _ _) eq_refl).
Defined.

(** ** The microphone button *)

Lemma main_voice_button_on_failure
    (clicked : bool) (sr : recognizer) (e : exn) (w : world) :
  recognition_raises sr e ->
  cls e = UnknownValueError \/ cls e = RequestError ->
  exists shown,
    main_voice_button clicked sr w
    = (Done tt, World (session w) (page w ++ shown) (model_calls w)).
Proof.
  intros Hr Hc. unfold main_voice_button. destruct clicked.
  - unfold bind.
    destruct Hc as [Hc|Hc];
      [rewrite (speech_to_text_no_match sr e w Hr Hc)
      |rewrite (speech_to_text_service_error sr e w Hr Hc)];
      eexists; reflexivity.
  - exists []. unfold ret. rewrite app_nil_r. destruct w; reflexivity.
Qed.

(** C8.  When recognition fails, by audio that is not understood or by a
    failure of the service, the microphone button changes neither the
    history nor the pending input, and the run goes on. *)
Theorem recognition_failure_leaves_session
    (clicked : bool) (sr : recognizer) (e : exn) (w : world) :
  recognition_raises sr e ->
  cls e = UnknownValueError \/ cls e = RequestError ->
  fst (main_voice_button clicked sr w) = Done tt
  /\ messages (session (snd (main_voice_button clicked sr w)))
     = messages (session w)
  /\ user_input (session (snd (main_voice_button clicked sr w)))
     = user_input (session w).
Proof.
  intros Hr Hc.
  destruct (main_voice_button_on_failure clicked sr e w Hr Hc) as [shown ->].
  repeat split.
Qed.

Lemma recognition_failure_leaves_session_witness :
  recognition_raises (failing_recognizer [] (Exn UnknownValueError []))
                     (Exn UnknownValueError [])
  /\ (cls (Exn UnknownValueError []) = UnknownValueError
      \/ cls (Exn UnknownValueError []) = RequestError)
  /\ fst (main_voice_button true
            (failing_recognizer [] (Exn UnknownValueError [])) fresh)
     = Done tt
  /\ messages (session (snd (main_voice_button true
            (failing_recognizer [] (Exn UnknownValueError [])) fresh)))
     = messages (session fresh)
  /\ user_input (session (snd (main_voice_button true
            (failing_recognizer [] (Exn UnknownValueError [])) fresh)))
     = user_input (session fresh).
Proof.
  split; [apply failing_recognizer_raises|].
  split; [left; reflexivity|].
  apply (recognition_failure_leaves_session true
           (failing_recognizer [] (Exn UnknownValueError []))
           (Exn UnknownValueError []) fresh).
  - apply failing_recognizer_raises.
  - left. reflexivity.
Defined.

(** ** A backend that raises *)

Lemma apology_lacks_error_details (detail : str) :
  contains error_apology (lit "Error details: " ++ detail) = false.
Proof.
  destruct (contains error_apology (lit "Error details: " ++ detail)) eqn:H;
    [|reflexivity].
  apply contains_shorter in H. vm_compute in H. discriminate H.
Qed.

(** C9.  When the model call raises, both paths are taken: the exception's
    text is shown in an error element of the page, and the generic apology
    becomes the assistant turn.  The apology is one literal whatever the
    exception says, and the text shown in the error element is no part of
    it. *)
Theorem model_exception_shown_and_apologised
    (model : llm) (gTTS : synthesizer) (tts_clicked : bool)
    (text : str) (e : exn) (w : world) :
  text <> [] ->
  model (full_prompt text) = Raises e ->
  get_ai_response model text w
  = (Done (lit "I apologize, but there was an error generating the response. Please try again."),
     World (session w)
           (page w ++ [Error (lit "Error details: " ++ msg e)])
           (model_calls w ++ [full_prompt text]))
  /\ In (Error (lit "Error details: " ++ msg e))
        (page (snd (main_process_user_input model gTTS tts_clicked text w)))
  /\ messages (session
       (snd (main_process_user_input model gTTS tts_clicked text w)))
     = messages (session w)
         ++ [Message user text;
             Message assistant
               (lit "I apologize, but there was an error generating the response. Please try again.")]
  /\ contains
       (lit "I apologize, but there was an error generating the response. Please try again.")
       (lit "Error details: " ++ msg e) = false.
Proof.
  intros Ht Hm.
  pose proof (get_ai_response_raises model text e) as Hraise.
  split; [exact (Hraise w Hm)|].
  destruct (process_user_input_run model gTTS tts_clicked text Ht)
    as [reply [shown [spoken [Hr Hc]]]].
  pose proof (Hr w) as Hw. rewrite (Hraise w Hm) in Hw.
  injection Hw as Hreply Hshown. apply app_inv_head in Hshown.
  subst reply shown. rewrite (Hc w). cbn [fst snd session messages page].
  split; [|split].
  - apply in_or_app. right. left. reflexivity.
  - reflexivity.
  - exact (apology_lacks_error_details (msg e)).
Qed.

Lemma model_exception_shown_and_apologised_witness :
  lit "What is a bond?" <> []
  /\ In (Error (lit "Error details: connection refused"))
        (page (snd (main_process_user_input
           (fun _ => Raises (Exn OtherError (lit "connection refused")))
           speaks false (lit "What is a bond?") fresh)))
  /\ messages (session (snd (main_process_user_input
           (fun _ => Raises (Exn OtherError (lit "connection refused")))
           speaks false (lit "What is a bond?") fresh)))
     = [Message user (lit "What is a bond?");
        Message assistant
          (lit "I apologize, but there was an error generating the response. Please try again.")].
Proof.
  assert (H : lit "What is a bond?" <> []) by (vm_compute; discriminate).
  split; [exact H|].
  destruct (model_exception_shown_and_apologised
              (fun _ => Raises (Exn OtherError (lit "connection refused")))
              speaks false (lit "What is a bond?")
              (Exn OtherError (lit "connection refused")) fresh H eq_refl)
    as [_ [Hshown [Hturns _]]].
  split; [exact Hshown | exact Hturns].
Defined.

(** ** The reply on the success path *)

(** C10.  When the backend returns a string that is not empty, the client
    returns that string without its leading and trailing whitespace, and
    this is the content of the assistant turn.  For a string of whitespace
    only the result is the empty string: not the string itself, and not
    the fallback message. *)
Theorem reply_is_stripped_backend_text
    (model : llm) (prompt s : str) (w : world) :
  model (full_prompt prompt) = Returns (PyStr s) ->
  s <> [] ->
  fst (get_ai_response model prompt w) = Done (strip s)
  /\ (forall gTTS tts_clicked,
        prompt <> [] ->
        messages (session
          (snd (main_process_user_input model gTTS tts_clicked prompt w)))
        = messages (session w)
            ++ [Message user prompt; Message assistant (strip s)])
  /\ (exists l r, s = l ++ strip s ++ r
                  /\ forallb isspace l = true /\ forallb isspace r = true)
  /\ (forall c t, strip s = c :: t -> isspace c = false)
  /\ (forall t c, strip s = t ++ [c] -> isspace c = false)
  /\ (forallb isspace s = true ->
        fst (get_ai_response model prompt w) = Done []
        /\ [] <> s
        /\ [] <> lit "I apologize, but I couldn't generate a proper response at this time.").
Proof.
  intros Hm Hs.
  pose proof (get_ai_response_text model prompt s) as Htext.
  split; [rewrite (Htext w Hm Hs); reflexivity|].
  split.
  { intros gTTS tts_clicked Hp.
    destruct (process_user_input_cycle model gTTS tts_clicked prompt Hp)
      as [reply [shown [Hr Hc]]].
    specialize (Hr w). rewrite (Htext w Hm Hs) in Hr.
    injection Hr as <-. rewrite (Hc w). reflexivity. }
  destruct (strip_spec s) as [Hsplit [Hhead Hlast]].
  repeat (split; [assumption|]).
  intros Hblank. rewrite (Htext w Hm Hs), (strip_spaces s Hblank).
  repeat split; [congruence | vm_compute; discriminate].
Qed.

Lemma reply_is_stripped_backend_text_witness :
  answers (lit "  ") (full_prompt (lit "What is a bond?"))
    = Returns (PyStr (lit "  "))
  /\ lit "  " <> []
  /\ forallb isspace (lit "  ") = true
  /\ fst (get_ai_response (answers (lit "  ")) (lit "What is a bond?") fresh)
     = Done []
  /\ messages (session (snd (main_process_user_input
        (answers (lit "  ")) speaks false (lit "What is a bond?") fresh)))
     = [Message user (lit "What is a bond?"); Message assistant []].
Proof.
  assert (Hs : lit "  " <> []) by (vm_compute; discriminate).
  assert (Hp : lit "What is a bond?" <> []) by (vm_compute; discriminate).
  split; [reflexivity|]. split; [exact Hs|]. split; [reflexivity|].
  destruct (reply_is_stripped_backend_text
              (answers (lit "  ")) (lit "What is a bond?") (lit "  ") fresh
              eq_refl Hs)
    as [_ [Hturn [_ [_ [_ Hblank]]]]].
  split.
  - exact (proj1 (Hblank eq_refl)).
  - exact (Hturn speaks false Hp).
Defined.

(** A padded answer loses its padding, inner blanks stay. *)
Example padded_reply :
  fst (get_ai_response
         (answers ([10; 32]%N ++ lit "A bond is a debt instrument." ++ [32; 10]%N))
         (lit "What is a bond?") fresh)
  = Done (lit "A bond is a debt instrument.").
Proof. vm_compute. reflexivity. Qed.

(** ** A whole run of [main] *)

Lemma display_messages_page (ms : list message) (w : world) :
  display_messages ms w =
    (Done tt,
     World (session w)
           (page w ++ map (fun m => ChatMessage (role m) (content m)) ms)
           (model_calls w)).
Proof.
  revert w. induction ms as [|m rest IH]; intros w; simpl.
  - unfold ret. rewrite app_nil_r. destruct w; reflexivity.
  - unfold bind, show. rewrite IH. simpl. rewrite <- app_assoc. reflexivity.
Qed.

(** Up to the widgets, a run only draws: header and history. *)
Lemma main_script_prelude (i : inputs) (w : world) :
  exists shown,
    main_script i w =
      bind (main_voice_button (mic_button i) (sr i))
           (fun _ =>
              bind (main_process_user_input (model i) (gTTS i)
                      (tts_button i) (text_input i))
                   (fun _ => main_clear_button (clear_button i)))
           (World (session w) (page w ++ shown) (model_calls w)).
Proof.
  eexists. unfold main_script, main_header, main_display_history.
  unfold bind at 1 2 3 4 5 6.
  cbv beta iota delta [st_title st_markdown show get_session].
  cbn [session page model_calls].
  rewrite display_messages_page. cbn [session page model_calls].
  rewrite <- !app_assoc. reflexivity.
Qed.

(** The microphone button either lets the run go on with the session as
    it was, or stores the recognised text and asks for a rerun. *)
Lemma main_voice_button_cases (clicked : bool) (sr : recognizer) (w : world) :
  exists shown,
    main_voice_button clicked sr w
    = (Done tt, World (session w) (page w ++ shown) (model_calls w))
    \/ exists text,
         text <> []
         /\ main_voice_button clicked sr w
            = (Rerun,
               World (Session (messages (session w)) text)
                     (page w ++ shown) (model_calls w)).
Proof.
  unfold main_voice_button. destruct clicked.
  - destruct (speech_to_text_returns sr) as [spoken [shown H]].
    exists shown. unfold bind. rewrite H.
    destruct spoken as [[|c t]|]; simpl.
    + left. reflexivity.
    + right. exists (c :: t). split; [discriminate | reflexivity].
    + left. reflexivity.
  - exists []. left. unfold ret. rewrite app_nil_r. destruct w; reflexivity.
Qed.

(** The cycle always ends normally. *)
Lemma main_process_user_input_done (model : llm) (gTTS : synthesizer)
    (tts_clicked : bool) (text : str) (w : world) :
  exists w', main_process_user_input model gTTS tts_clicked text w
             = (Done tt, w').
Proof.
  destruct text as [|c t].
  - exists w. reflexivity.
  - assert (Ht : c :: t <> []) by discriminate.
    destruct (process_user_input_cycle model gTTS tts_clicked (c :: t) Ht)
      as [reply [shown [_ Hc]]].
    eexists. exact (Hc w).
Qed.

Lemma main_clear_button_no_raise (clicked : bool) (w : world) (e : exn) :
  fst (main_clear_button clicked w) <> Raise e.
Proof. destruct clicked; discriminate. Qed.

(** X13.  No exception leaves [main]: whatever the widgets read and the
    services do, a run ends normally or by a rerun. *)
Lemma main_never_raises (i : inputs) (store : session_store) (e : exn) :
  fst (main i store) <> Raise e.
Proof.
  unfold main.
  destruct (main_script_prelude i (World (init_session_state store) [] []))
    as [shown ->].
  unfold bind at 1.
  destruct (main_voice_button_cases (mic_button i) (sr i)
              (World (session (World (init_session_state store) [] []))
                     (page (World (init_session_state store) [] []) ++ shown)
                     (model_calls (World (init_session_state store) [] []))))
    as [heard [->|[text [_ ->]]]]; [|discriminate].
  unfold bind.
  match goal with
  | |- context [main_process_user_input ?m ?g ?b ?t ?w] =>
      destruct (main_process_user_input_done m g b t w) as [w' ->]
  end.
  apply main_clear_button_no_raise.
Qed.

(** X14.  A run with a question typed in, and no button pressed, ends
    normally, adds the user turn and the assistant turn to the history the
    session had, and leaves the pending input empty. *)
Lemma main_question_adds_two_turns (i : inputs) (store : session_store) :
  mic_button i = false ->
  clear_button i = false ->
  text_input i <> [] ->
  exists reply,
    (forall w, fst (get_ai_response (model i) (text_input i) w) = Done reply)
    /\ fst (main i store) = Done tt
    /\ session (snd (main i store))
       = Session (messages (init_session_state store)
                    ++ [Message user (text_input i); Message assistant reply])
                 [].
Proof.
  intros Hmic Hclear Ht. unfold main.
  destruct (main_script_prelude i (World (init_session_state store) [] []))
    as [shown ->].
  destruct (process_user_input_cycle (model i) (gTTS i) (tts_button i)
              (text_input i) Ht) as [reply [drawn [Hr Hc]]].
  exists reply. split; [exact Hr|].
  rewrite Hmic, Hclear. unfold bind. simpl. rewrite Hc. simpl.
  split; reflexivity.
Qed.

(** X15.  A run with the clear button pressed, and the microphone button
    not, ends by a rerun with an empty session, whatever was stored and
    whatever is typed. *)
Lemma main_clear_empties_session (i : inputs) (store : session_store) :
  mic_button i = false ->
  clear_button i = true ->
  fst (main i store) = Rerun
  /\ session (snd (main i store)) = Session [] [].
Proof.
  intros Hmic Hclear. unfold main.
  destruct (main_script_prelude i (World (init_session_state store) [] []))
    as [shown ->].
  rewrite Hmic, Hclear. unfold bind. simpl.
  match goal with
  | |- context [main_process_user_input ?m ?g ?b ?t ?w] =>
      destruct (main_process_user_input_done m g b t w) as [w' ->]
  end.
  split; reflexivity.
Qed.

(** X16.  A run in which recognition fails, with nothing typed and the
    clear button not pressed, ends normally and leaves the session as it
    found it. *)
Lemma main_failed_recognition_keeps_session
    (i : inputs) (store : session_store) (e : exn) :
  recognition_raises (sr i) e ->
  cls e = UnknownValueError \/ cls e = RequestError ->
  text_input i = [] ->
  clear_button i = false ->
  fst (main i store) = Done tt
  /\ session (snd (main i store)) = init_session_state store.
Proof.
  intros Hr Hc Ht Hclear. unfold main.
  destruct (main_script_prelude i (World (init_session_state store) [] []))
    as [shown ->].
  rewrite Ht, Hclear. unfold bind.
  match goal with
  | |- context [main_voice_button ?b ?r ?w] =>
      destruct (main_voice_button_on_failure b r e w Hr Hc) as [heard ->]
  end.
  split; reflexivity.
Qed.

(** X17.  Over one run the history stays as it was, gains the two turns
    of one cycle on the text box's value, or is emptied by the clear
    button; nothing else can happen to it. *)
Lemma main_history_cases (i : inputs) (store : session_store) :
  messages (session (snd (main i store)))
  = messages (init_session_state store)
  \/ (exists reply,
        messages (session (snd (main i store)))
        = messages (init_session_state store)
            ++ [Message user (text_input i); Message assistant reply])
  \/ messages (session (snd (main i store))) = [].
Proof.
  unfold main.
  destruct (main_script_prelude i (World (init_session_state store) [] []))
    as [shown ->].
  unfold bind.
  match goal with
  | |- context [main_voice_button ?b ?r ?w] =>
      destruct (main_voice_button_cases b r w)
        as [heard [->|[text [_ ->]]]]
  end; [|left; reflexivity].
  destruct (text_input i) as [|c t] eqn:Ht.
  - cbn [main_process_user_input nonempty ret].
    destruct (clear_button i); [right; right|left]; reflexivity.
  - assert (Hne : c :: t <> []) by discriminate.
    destruct (process_user_input_cycle (model i) (gTTS i) (tts_button i)
                (c :: t) Hne) as [reply [drawn [_ Hc]]].
    rewrite Hc.
    destruct (clear_button i); [right; right; reflexivity|].
    right. left. exists reply. reflexivity.
Qed.

(** * Further properties of the program *)

(** ** Text to speech *)

(** X1.  [text_to_speech] never raises and touches neither the session
    state nor the model.  It puts exactly one element on the page: the
    audio of the text when synthesis works, and otherwise an error with
    the text of the exception. *)
Theorem text_to_speech_shows_audio_or_error
    (gTTS : synthesizer) (text language : str) (w : world) :
  fst (text_to_speech gTTS text language w) = Done tt
  /\ session (snd (text_to_speech gTTS text language w)) = session w
  /\ model_calls (snd (text_to_speech gTTS text language w)) = model_calls w
  /\ page (snd (text_to_speech gTTS text language w))
     = page w
         ++ [match gTTS text language with
             | Returns _ => Audio text
             | Raises e =>
                 Error (lit "Error in text-to-speech conversion: " ++ msg e)
             end].
Proof.
  unfold text_to_speech, try_except, bind, call, st_error, show.
  destruct (gTTS text language) as [[]|e]; repeat split.
Qed.

(** ** Speech to text *)

Lemma speech_to_text_heard (sr : recognizer) (text : str) (w : world) :
  recognition_returns sr text ->
  speech_to_text sr w =
    (Done (Some text),
     World (session w) (page w ++ [Write (lit "Listening... Speak now!")])
           (model_calls w)).
Proof.
  intros [Hm [Hn [a [Hl Hr]]]]. run_speech_to_text.
  rewrite Hm, Hn, Hl, Hr. reflexivity.
Qed.

Lemma working_recognizer_returns (a : audio) (text : str) :
  recognition_returns (working_recognizer a text) text.
Proof.
  repeat split. exists a. split; reflexivity.
Qed.


(** X3.  Whatever the microphone and the recogniser do, [speech_to_text]
    leaves the session state and the list of model calls as they were, and
    only adds to the page: at most the listening line and one message. *)
Theorem speech_to_text_only_writes_page (sr : recognizer) (w : world) :
  session (snd (speech_to_text sr w)) = session w
  /\ model_calls (snd (speech_to_text sr w)) = model_calls w
  /\ exists shown,
       page (snd (speech_to_text sr w)) = page w ++ shown
       /\ length shown <= 2.
Proof.
  run_speech_to_text.
  destruct (Microphone sr) as [[]|e1];
    [destruct (adjust_for_ambient_noise sr) as [[]|e2];
       [destruct (listen sr) as [a|e3];
          [destruct (recognize_google sr a) as [t|[[] m]]|]|]|];
    simpl; repeat split; rewrite <- ?app_assoc;
    eexists; (split; [reflexivity | simpl; repeat constructor]).
Qed.

(** X4.  When the microphone cannot be opened, [speech_to_text] returns
    [None] and shows one error carrying the exception's text; the
    listening line is never shown. *)
Theorem speech_to_text_without_microphone
    (sr : recognizer) (e : exn) (w : world) :
  Microphone sr = Raises e ->
  speech_to_text sr w =
    (Done None,
     World (session w)
           (page w ++ [Error (lit "Error in speech-to-text conversion: "
                              ++ msg e)])
           (model_calls w)).
Proof.
  intros H. run_speech_to_text. rewrite H. reflexivity.
Qed.

Lemma speech_to_text_without_microphone_witness :
  Microphone (no_microphone (Exn OtherError (lit "No Default Input Device Available")))
    = Raises (Exn OtherError (lit "No Default Input Device Available"))
  /\ speech_to_text
       (no_microphone (Exn OtherError (lit "No Default Input Device Available")))
       fresh
     = (Done None,
        World (Session [] [])
              [Error (lit "Error in speech-to-text conversion: No Default Input Device Available")]
              []).
Proof.
  split; [reflexivity|].
  exact (speech_to_text_without_microphone
           (no_microphone (Exn OtherError (lit "No Default Input Device Available")))
           (Exn OtherError (lit "No Default Input Device Available"))
           fresh eq_refl).
Defined.

(** X5.  An exception of the recogniser that is neither
    [UnknownValueError] nor [RequestError] passes the inner handlers and
    is reported by the outer one, after the listening line; the result is
    [None]. *)
Theorem speech_to_text_unexpected_exception
    (sr : recognizer) (e : exn) (w : world) :
  recognition_raises sr e ->
  cls e <> UnknownValueError ->
  cls e <> RequestError ->
  speech_to_text sr w =
    (Done None,
     World (session w)
           (page w ++ [Write (lit "Listening... Speak now!");
                       Error (lit "Error in speech-to-text conversion: "
                              ++ msg e)])
           (model_calls w)).
Proof.
  intros [Hm [Hn [a [Hl Hr]]]] Hu Hq. run_speech_to_text.
  rewrite Hm, Hn, Hl, Hr.
  destruct e as [[] m]; simpl in *; try congruence;
    rewrite <- app_assoc; reflexivity.
Qed.

Lemma speech_to_text_unexpected_exception_witness :
  recognition_raises
    (failing_recognizer [] (Exn OtherError (lit "bad audio format")))
    (Exn OtherError (lit "bad audio format"))
  /\ speech_to_text
       (failing_recognizer [] (Exn OtherError (lit "bad audio format")))
       fresh
     = (Done None,
        World (Session [] [])
              [Write (lit "Listening... Speak now!");
               Error (lit "Error in speech-to-text conversion: bad audio format")]
              []).
Proof.
  split; [apply failing_recognizer_raises|].
  apply (speech_to_text_unexpected_exception
           (failing_recognizer [] (Exn OtherError (lit "bad audio format")))
           (Exn OtherError (lit "bad audio format")) fresh).
  - apply failing_recognizer_raises.
  - discriminate.
  - discriminate.
Defined.

(** ** The microphone button, recognised text *)

Lemma main_voice_button_heard (sr : recognizer) (text : str) (w : world) :
  recognition_returns sr text ->
  text <> [] ->
  main_voice_button true sr w =
    (Rerun,
     World (Session (messages (session w)) text)
           (page w ++ [Write (lit "Listening... Speak now!")])
           (model_calls w)).
Proof.
  intros Hr Ht. unfold main_voice_button, bind.
  rewrite (speech_to_text_heard sr text w Hr), (nonempty_true text Ht).
  reflexivity.
Qed.

(** X6.  A recognised text that is empty counts as nothing heard: the
    microphone button changes nothing in the session and the run goes
    on. *)
Theorem voice_button_ignores_empty_text
    (clicked : bool) (sr : recognizer) (w : world) :
  recognition_returns sr [] ->
  fst (main_voice_button clicked sr w) = Done tt
  /\ session (snd (main_voice_button clicked sr w)) = session w
  /\ model_calls (snd (main_voice_button clicked sr w)) = model_calls w.
Proof.
  intros Hr. unfold main_voice_button. destruct clicked; [|repeat split].
  unfold bind. rewrite (speech_to_text_heard sr [] w Hr). repeat split.
Qed.

Lemma voice_button_ignores_empty_text_witness :
  recognition_returns (working_recognizer [] []) []
  /\ fst (main_voice_button true (working_recognizer [] []) fresh) = Done tt
  /\ session (snd (main_voice_button true (working_recognizer [] []) fresh))
     = session fresh
  /\ model_calls (snd (main_voice_button true (working_recognizer [] []) fresh))
     = model_calls fresh.
Proof.
  split; [apply working_recognizer_returns|].
  exact (voice_button_ignores_empty_text true (working_recognizer [] []) fresh
           (working_recognizer_returns [] [])).
Defined.

(** ** Whole runs *)

(** The run up to the widgets, with what it draws. *)
Lemma main_script_steps (i : inputs) (w : world) :
  main_script i w =
    bind (main_voice_button (mic_button i) (sr i))
         (fun _ =>
            bind (main_process_user_input (model i) (gTTS i)
                    (tts_button i) (text_input i))
                 (fun _ => main_clear_button (clear_button i)))
         (World (session w)
                (page w
                   ++ [PageConfig (lit "AI Financial Analyst");
                       Style;
                       Title ([0x1F4B9%N] ++ lit " AI Financial Analyst");
                       Markdown (lit "Your intelligent companion for financial analysis and investment strategies.")]
                   ++ map (fun m => ChatMessage (role m) (content m))
                          (messages (session w)))
                (model_calls w)).
Proof.
  unfold main_script, main_header, main_display_history.
  unfold bind at 1 2 3 4 5 6.
  cbv beta iota delta [st_title st_markdown show get_session].
  cbn [session page model_calls].
  rewrite display_messages_page. cbn [session page model_calls].
  rewrite <- !app_assoc. reflexivity.
Qed.

(** The cycle, whatever the text: how far page and model calls grow. *)
Lemma main_process_user_input_shape (model : llm) (gTTS : synthesizer)
    (tts_clicked : bool) (text : str) (w : world) :
  exists s' shown,
    main_process_user_input model gTTS tts_clicked text w
    = (Done tt,
       World s' (page w ++ shown)
             (model_calls w
                ++ if nonempty text then [full_prompt text] else [])).
Proof.
  destruct text as [|c t].
  - exists (session w), []. cbn [main_process_user_input nonempty ret].
    rewrite !app_nil_r. destruct w; reflexivity.
  - assert (Ht : c :: t <> []) by discriminate.
    destruct (process_user_input_cycle model gTTS tts_clicked (c :: t) Ht)
      as [reply [shown [_ Hc]]].
    eexists. exists shown. rewrite Hc. reflexivity.
Qed.

Ltac enter_main i store :=
  unfold main;
  rewrite (main_script_steps i (World (init_session_state store) [] []));
  cbn [session page model_calls app].

(** X7.  When the microphone button is pressed and a text that is not
    empty is recognised, the run stores the text as the pending input and
    stops there with a rerun: the history is as it was, the model is not
    called, and neither the text box nor the clear button is looked at. *)
Theorem main_heard_text_reruns
    (i : inputs) (store : session_store) (text : str) :
  mic_button i = true ->
  recognition_returns (sr i) text ->
  text <> [] ->
  fst (main i store) = Rerun
  /\ session (snd (main i store))
     = Session (messages (init_session_state store)) text
  /\ model_calls (snd (main i store)) = [].
Proof.
  intros Hmic Hr Ht. enter_main i store. unfold bind.
  rewrite Hmic, (main_voice_button_heard (sr i) text _ Hr Ht).
  repeat split.
Qed.

Lemma main_heard_text_reruns_witness :
  recognition_returns (working_recognizer [] (lit "what is a bond")) 
                      (lit "what is a bond")
  /\ lit "what is a bond" <> []
  /\ fst (main (run_inputs (lit "typed") true true
                  (working_recognizer [] (lit "what is a bond"))
                  (answers (lit "unused")))
               (Store None None)) = Rerun
  /\ session (snd (main (run_inputs (lit "typed") true true
                  (working_recognizer [] (lit "what is a bond"))
                  (answers (lit "unused")))
               (Store None None)))
     = Session [] (lit "what is a bond")
  /\ model_calls (snd (main (run_inputs (lit "typed") true true
                  (working_recognizer [] (lit "what is a bond"))
                  (answers (lit "unused")))
               (Store None None))) = [].
Proof.
  assert (Ht : lit "what is a bond" <> []) by (vm_compute; discriminate).
  split; [apply working_recognizer_returns|]. split; [exact Ht|].
  exact (main_heard_text_reruns
           (run_inputs (lit "typed") true true
              (working_recognizer [] (lit "what is a bond"))
              (answers (lit "unused")))
           (Store None None) (lit "what is a bond") eq_refl
           (working_recognizer_returns [] (lit "what is a bond")) Ht).
Defined.

(** X8.  A run with nothing typed and no button pressed ends normally,
    calls no model, and leaves in the session what it found there, a
    missing key holding its initial value: no turns, no pending input. *)
Theorem main_idle_run_keeps_session (i : inputs) (store : session_store) :
  mic_button i = false ->
  clear_button i = false ->
  text_input i = [] ->
  fst (main i store) = Done tt
  /\ messages (session (snd (main i store)))
     = match stored_messages store with Some ms => ms | None => [] end
  /\ user_input (session (snd (main i store)))
     = match stored_user_input store with Some u => u | None => [] end
  /\ model_calls (snd (main i store)) = [].
Proof.
  intros Hmic Hclear Ht. enter_main i store.
  rewrite Hmic, Hclear, Ht. repeat split.
Qed.

Lemma main_idle_run_keeps_session_witness :
  fst (main (run_inputs [] false false (working_recognizer [] [])
               (answers (lit "unused")))
            (Store (Some [Message user (lit "hi"); Message assistant (lit "hello")])
                   None)) = Done tt
  /\ messages (session (snd (main
        (run_inputs [] false false (working_recognizer [] [])
           (answers (lit "unused")))
        (Store (Some [Message user (lit "hi"); Message assistant (lit "hello")])
               None))))
     = [Message user (lit "hi"); Message assistant (lit "hello")]
  /\ user_input (session (snd (main
        (run_inputs [] false false (working_recognizer [] [])
           (answers (lit "unused")))
        (Store (Some [Message user (lit "hi"); Message assistant (lit "hello")])
               None)))) = []
  /\ model_calls (snd (main
        (run_inputs [] false false (working_recognizer [] [])
           (answers (lit "unused")))
        (Store (Some [Message user (lit "hi"); Message assistant (lit "hello")])
               None))) = [].
Proof.
  exact (main_idle_run_keeps_session
           (run_inputs [] false false (working_recognizer [] [])
              (answers (lit "unused")))
           (Store (Some [Message user (lit "hi"); Message assistant (lit "hello")])
                  None)
           eq_refl eq_refl eq_refl).
Defined.

(** X9.  A run calls the model at most once, and only with the prompt
    built from the text box; with nothing typed it calls no model. *)
Theorem main_calls_model_at_most_once (i : inputs) (store : session_store) :
  (model_calls (snd (main i store)) = []
   \/ model_calls (snd (main i store)) = [full_prompt (text_input i)])
  /\ (text_input i = [] -> model_calls (snd (main i store)) = []).
Proof.
  enter_main i store. unfold bind.
  match goal with
  | |- context [main_voice_button ?b ?r ?w] =>
      destruct (main_voice_button_cases b r w)
        as [heard [->|[text [_ ->]]]]
  end; [|split; [left|intros _]; reflexivity].
  match goal with
  | |- context [main_process_user_input ?m ?g ?b ?t ?w] =>
      destruct (main_process_user_input_shape m g b t w)
        as [s' [shown ->]]
  end.
  cbn [model_calls app].
  destruct (text_input i) as [|c t]; cbn [nonempty];
    destruct (clear_button i); split;
    try (intros H; discriminate H); try (intros _);
    try (left; reflexivity); try (right; reflexivity); reflexivity.
Qed.

(** X10.  Every run starts the page with the header and then the turns of
    the history it found, in their order, each under its role; whatever
    else the run shows comes after. *)
Theorem main_draws_header_then_history (i : inputs) (store : session_store) :
  exists rest,
    page (snd (main i store))
    = [PageConfig (lit "AI Financial Analyst");
       Style;
       Title ([0x1F4B9%N] ++ lit " AI Financial Analyst");
       Markdown (lit "Your intelligent companion for financial analysis and investment strategies.")]
      ++ map (fun m => ChatMessage (role m) (content m))
             (messages (init_session_state store))
      ++ rest.
Proof.
  enter_main i store. unfold bind.
  match goal with
  | |- context [main_voice_button ?b ?r ?w] =>
      destruct (main_voice_button_cases b r w)
        as [heard [->|[text [_ ->]]]]
  end.
  - match goal with
    | |- context [main_process_user_input ?m ?g ?b ?t ?w] =>
        destruct (main_process_user_input_shape m g b t w)
          as [s' [shown ->]]
    end.
    exists (heard ++ shown).
    destruct (clear_button i); cbn [snd page main_clear_button];
      unfold bind, set_messages, set_user_input, st_rerun, ret;
      cbn [snd page app]; rewrite <- ?app_assoc; reflexivity.
  - exists heard. cbn [snd page app]. rewrite <- ?app_assoc. reflexivity.
Qed.

(** X11.  When a question is typed and the clear button is pressed in the
    same run, the model is still called with the question, and the run
    then ends with an empty session: the two turns just added are gone
    with the rest. *)
Theorem main_clear_discards_answer (i : inputs) (store : session_store) :
  mic_button i = false ->
  clear_button i = true ->
  text_input i <> [] ->
  fst (main i store) = Rerun
  /\ session (snd (main i store)) = Session [] []
  /\ model_calls (snd (main i store)) = [full_prompt (text_input i)].
Proof.
  intros Hmic Hclear Ht. enter_main i store.
  destruct (process_user_input_cycle (model i) (gTTS i) (tts_button i)
              (text_input i) Ht) as [reply [drawn [_ Hc]]].
  rewrite Hmic, Hclear. unfold bind. simpl. rewrite Hc.
  repeat split.
Qed.

Lemma main_clear_discards_answer_witness :
  lit "What is a bond?" <> []
  /\ fst (main (run_inputs (lit "What is a bond?") false true
                  (working_recognizer [] [])
                  (answers (lit "A bond is a debt instrument.")))
               (Store None None)) = Rerun
  /\ session (snd (main (run_inputs (lit "What is a bond?") false true
                  (working_recognizer [] [])
                  (answers (lit "A bond is a debt instrument.")))
               (Store None None))) = Session [] []
  /\ model_calls (snd (main (run_inputs (lit "What is a bond?") false true
                  (working_recognizer [] [])
                  (answers (lit "A bond is a debt instrument.")))
               (Store None None)))
     = [full_prompt (lit "What is a bond?")].
Proof.
  assert (Ht : lit "What is a bond?" <> []) by (vm_compute; discriminate).
  split; [exact Ht|].
  exact (main_clear_discards_answer
           (run_inputs (lit "What is a bond?") false true
              (working_recognizer [] [])
              (answers (lit "A bond is a debt instrument.")))
           (Store None None) eq_refl eq_refl Ht).
Defined.

(** ** The history stays a list of question/answer pairs *)

Lemma paired_app (b : list message) :
  paired b = true ->
  forall a, paired a = true -> paired (a ++ b) = true.
Proof.
  intros Hb.
  assert (H : forall a,
             (paired a = true -> paired (a ++ b) = true)
             /\ (forall m, paired (m :: a) = true ->
                           paired ((m :: a) ++ b) = true)).
  { induction a as [|x a [IH1 IH2]].
    - split; [intros _; exact Hb | intros m H; discriminate H].
    - split; [exact (IH2 x)|].
      intros m H. cbn [paired app] in *.
      destruct (role m); [|discriminate H].
      destruct (role x); [discriminate H|].
      apply andb_prop in H. destruct H as [Hm Ha].
      rewrite Hm. exact (IH1 Ha). }
  intros a. exact (proj1 (H a)).
Qed.

(** The history after a run, with the condition of each case. *)
Lemma main_history_step (i : inputs) (store : session_store) :
  messages (session (snd (main i store)))
  = messages (init_session_state store)
  \/ (text_input i <> []
      /\ exists reply,
           messages (session (snd (main i store)))
           = messages (init_session_state store)
               ++ [Message user (text_input i); Message assistant reply])
  \/ messages (session (snd (main i store))) = [].
Proof.
  enter_main i store. unfold bind.
  match goal with
  | |- context [main_voice_button ?b ?r ?w] =>
      destruct (main_voice_button_cases b r w)
        as [heard [->|[text [_ ->]]]]
  end; [|left; reflexivity].
  destruct (text_input i) as [|c t] eqn:Ht.
  - cbn [main_process_user_input nonempty ret].
    destruct (clear_button i); [right; right|left]; reflexivity.
  - assert (Hne : c :: t <> []) by discriminate.
    destruct (process_user_input_cycle (model i) (gTTS i) (tts_button i)
                (c :: t) Hne) as [reply [drawn [_ Hc]]].
    rewrite Hc.
    destruct (clear_button i); [right; right; reflexivity|].
    right. left. split; [exact Hne|]. exists reply. reflexivity.
Qed.

(** X12.  A run keeps the history a list of question/answer pairs: if the
    stored history alternates user turns that are not empty with assistant
    turns, so does the history the run leaves. *)
Theorem main_keeps_history_paired (i : inputs) (store : session_store) :
  paired (messages (init_session_state store)) = true ->
  paired (messages (session (snd (main i store)))) = true.
Proof.
  intros Hp.
  destruct (main_history_step i store)
    as [ -> | [ [Ht [reply -> ] ] | -> ] ].
  - exact Hp.
  - apply paired_app; [|exact Hp].
    cbn [paired role content]. rewrite (nonempty_true _ Ht). reflexivity.
  - reflexivity.
Qed.

Lemma main_keeps_history_paired_witness :
  paired (messages (init_session_state
            (Store (Some [Message user (lit "hi"); Message assistant (lit "hello")])
                   None))) = true
  /\ paired (messages (session (snd (main
        (run_inputs (lit "What is a bond?") false false
           (working_recognizer [] [])
           (answers (lit "A bond is a debt instrument.")))
        (Store (Some [Message user (lit "hi"); Message assistant (lit "hello")])
               None))))) = true.
Proof.
  split; [reflexivity|].
  exact (main_keeps_history_paired
           (run_inputs (lit "What is a bond?") false false
              (working_recognizer [] [])
              (answers (lit "A bond is a debt instrument.")))
           (Store (Some [Message user (lit "hi"); Message assistant (lit "hello")])
                  None)
           eq_refl).
Defined.

(** ** More on the model client *)

(** X19.  Whatever the backend does, [get_ai_response] returns a string,
    leaves the session state alone and sends exactly one prompt.  When the
    backend returns, whatever the value, nothing is put on the page: the
    only error the client ever shows is that of a backend that raised. *)
Theorem get_ai_response_sends_one_prompt
    (model : llm) (prompt : str) (w : world) :
  (exists reply, fst (get_ai_response model prompt w) = Done reply)
  /\ session (snd (get_ai_response model prompt w)) = session w
  /\ model_calls (snd (get_ai_response model prompt w))
     = model_calls w ++ [full_prompt prompt]
  /\ (forall v, model (full_prompt prompt) = Returns v ->
                page (snd (get_ai_response model prompt w)) = page w).
Proof.
  destruct (model (full_prompt prompt)) as [v|e] eqn:Hm.
  - destruct (negb (truthy v) || negb (isinstance_str v)) eqn:Hv.
    + rewrite (get_ai_response_invalid model prompt v w Hm Hv).
      repeat split. eexists. reflexivity.
    + apply orb_false_elim in Hv. destruct Hv as [Ht Hi].
      destruct v as [| | |s|]; try discriminate Hi.
      assert (Hs : s <> []) by (intros ->; discriminate Ht).
      rewrite (get_ai_response_text model prompt s w Hm Hs).
      repeat split. eexists. reflexivity.
  - rewrite (get_ai_response_raises model prompt e w Hm).
    repeat split; [eexists; reflexivity|].
    intros v Hv. discriminate Hv.
Qed.

(** X20.  A backend result that is not a string (a number, a truth value,
    a list, [None]) gives the fallback message, also when the value counts
    as true. *)
Theorem get_ai_response_non_string_falls_back
    (model : llm) (prompt : str) (v : value) (w : world) :
  model (full_prompt prompt) = Returns v ->
  isinstance_str v = false ->
  fst (get_ai_response model prompt w)
  = Done (lit "I apologize, but I couldn't generate a proper response at this time.").
Proof.
  intros Hm Hi.
  rewrite (get_ai_response_invalid model prompt v w Hm).
  - reflexivity.
  - rewrite Hi. apply orb_true_r.
Qed.

Lemma get_ai_response_non_string_falls_back_witness :
  isinstance_str (PyInt 42) = false
  /\ truthy (PyInt 42) = true
  /\ fst (get_ai_response (fun _ => Returns (PyInt 42))
            (lit "What is a bond?") fresh)
     = Done (lit "I apologize, but I couldn't generate a proper response at this time.").
Proof.
  split; [reflexivity|]. split; [reflexivity|].
  exact (get_ai_response_non_string_falls_back
           (fun _ => Returns (PyInt 42)) (lit "What is a bond?") (PyInt 42)
           fresh eq_refl eq_refl).
Defined.

Lemma literal_ends (s body : str) (c d : N) :
  last s 0%N = d -> s = body ++ [c] -> c = d.
Proof.
  intros Hl ->. rewrite last_last in Hl. exact Hl.
Qed.

(** X21.  The client's reply never starts and never ends with whitespace,
    whatever the backend does. *)
Theorem get_ai_response_reply_is_trimmed
    (model : llm) (prompt : str) (w : world) :
  exists reply,
    fst (get_ai_response model prompt w) = Done reply
    /\ (forall c t, reply = c :: t -> isspace c = false)
    /\ (forall t c, reply = t ++ [c] -> isspace c = false).
Proof.
  destruct (model (full_prompt prompt)) as [v|e] eqn:Hm.
  - destruct (negb (truthy v) || negb (isinstance_str v)) eqn:Hv.
    + rewrite (get_ai_response_invalid model prompt v w Hm Hv).
      exists fallback_message. split; [reflexivity|]. split.
      * intros c t H. vm_compute in H. injection H as <- _. reflexivity.
      * intros t c H.
        rewrite (literal_ends fallback_message t c 46%N eq_refl H).
        reflexivity.
    + apply orb_false_elim in Hv. destruct Hv as [Ht Hi].
      destruct v as [| | |s|]; try discriminate Hi.
      assert (Hs : s <> []) by (intros ->; discriminate Ht).
      rewrite (get_ai_response_text model prompt s w Hm Hs).
      exists (strip s). split; [reflexivity|].
      exact (proj2 (strip_spec s)).
  - rewrite (get_ai_response_raises model prompt e w Hm).
    exists error_apology. split; [reflexivity|]. split.
    + intros c t H. vm_compute in H. injection H as <- _. reflexivity.
    + intros t c H.
      rewrite (literal_ends error_apology t c 46%N eq_refl H).
      reflexivity.
Qed.

(** X22.  Two questions that differ give prompts that differ, and no
    prompt is empty, not even that of the empty question. *)
Theorem full_prompt_injective (p q : str) :
  (full_prompt p = full_prompt q -> p = q) /\ full_prompt p <> [].
Proof.
  split.
  - unfold full_prompt. intros H.
    repeat apply app_inv_head in H. exact H.
  - unfold full_prompt. intros H.
    apply app_eq_nil in H. destruct H as [_ H].
    discriminate H.
Qed.

(** ** More on the cycle *)




(** X24.  Speech synthesis has no say in the conversation: whether the
    reply is spoken, and whether synthesis works, the cycle leaves the same
    session state and the same model calls. *)
Theorem cycle_ignores_speech_synthesis
    (model : llm) (gTTS1 gTTS2 : synthesizer) (clicked1 clicked2 : bool)
    (text : str) (w : world) :
  session (snd (main_process_user_input model gTTS1 clicked1 text w))
  = session (snd (main_process_user_input model gTTS2 clicked2 text w))
  /\ model_calls (snd (main_process_user_input model gTTS1 clicked1 text w))
     = model_calls (snd (main_process_user_input model gTTS2 clicked2 text w))
  /\ fst (main_process_user_input model gTTS1 clicked1 text w)
     = fst (main_process_user_input model gTTS2 clicked2 text w).
Proof.
  destruct text as [|c t]; [repeat split|].
  assert (Ht : c :: t <> []) by discriminate.
  destruct (process_user_input_cycle model gTTS1 clicked1 (c :: t) Ht)
    as [reply1 [shown1 [Hr1 Hc1]]].
  destruct (process_user_input_cycle model gTTS2 clicked2 (c :: t) Ht)
    as [reply2 [shown2 [Hr2 Hc2]]].
  rewrite Hc1, Hc2. cbn [fst snd session model_calls].
  assert (Heq : reply1 = reply2).
  { specialize (Hr1 w). rewrite Hr2 in Hr1. injection Hr1 as <-.
    reflexivity. }
  rewrite Heq. repeat split.
Qed.

(** ** Runs of the statements above *)

Lemma main_question_adds_two_turns_witness :
  lit "What is a bond?" <> []
  /\ exists reply,
       (forall w,
          fst (get_ai_response (answers (lit "A bond is a debt instrument."))
                 (lit "What is a bond?") w) = Done reply)
       /\ fst (main (run_inputs (lit "What is a bond?") false false
                       (working_recognizer [] [])
                       (answers (lit "A bond is a debt instrument.")))
                    (Store None (Some (lit "spoken earlier")))) = Done tt
       /\ session (snd (main (run_inputs (lit "What is a bond?") false false
                       (working_recognizer [] [])
                       (answers (lit "A bond is a debt instrument.")))
                    (Store None (Some (lit "spoken earlier")))))
          = Session [Message user (lit "What is a bond?");
                     Message assistant reply]
                    [].
Proof.
  assert (Ht : lit "What is a bond?" <> []) by (vm_compute; discriminate).
  split; [exact Ht|].
  exact (main_question_adds_two_turns
           (run_inputs (lit "What is a bond?") false false
              (working_recognizer [] [])
              (answers (lit "A bond is a debt instrument.")))
           (Store None (Some (lit "spoken earlier"))) eq_refl eq_refl Ht).
Defined.

Lemma main_clear_empties_session_witness :
  fst (main (run_inputs [] false true (working_recognizer [] [])
               (answers (lit "unused")))
            (Store (Some [Message user (lit "hi"); Message assistant (lit "hello")])
                   (Some (lit "spoken earlier")))) = Rerun
  /\ session (snd (main (run_inputs [] false true (working_recognizer [] [])
               (answers (lit "unused")))
            (Store (Some [Message user (lit "hi"); Message assistant (lit "hello")])
                   (Some (lit "spoken earlier")))))
     = Session [] [].
Proof.
  exact (main_clear_empties_session
           (run_inputs [] false true (working_recognizer [] [])
              (answers (lit "unused")))
           (Store (Some [Message user (lit "hi"); Message assistant (lit "hello")])
                  (Some (lit "spoken earlier")))
           eq_refl eq_refl).
Defined.

Lemma main_failed_recognition_keeps_session_witness :
  recognition_raises
    (failing_recognizer [] (Exn RequestError (lit "recognition connection failed")))
    (Exn RequestError (lit "recognition connection failed"))
  /\ fst (main (run_inputs [] true false
                  (failing_recognizer []
                     (Exn RequestError (lit "recognition connection failed")))
                  (answers (lit "unused")))
               (Store (Some [Message user (lit "hi"); Message assistant (lit "hello")])
                      None)) = Done tt
  /\ session (snd (main (run_inputs [] true false
                  (failing_recognizer []
                     (Exn RequestError (lit "recognition connection failed")))
                  (answers (lit "unused")))
               (Store (Some [Message user (lit "hi"); Message assistant (lit "hello")])
                      None)))
     = Session [Message user (lit "hi"); Message assistant (lit "hello")] [].
Proof.
  split; [apply failing_recognizer_raises|].
  apply (main_failed_recognition_keeps_session
           (run_inputs [] true false
              (failing_recognizer []
                 (Exn RequestError (lit "recognition connection failed")))
              (answers (lit "unused")))
           (Store (Some [Message user (lit "hi"); Message assistant (lit "hello")])
                  None)
           (Exn RequestError (lit "recognition connection failed"))).
  - apply failing_recognizer_raises.
  - right. reflexivity.
  - reflexivity.
  - reflexivity.
Defined.

Lemma get_ai_response_reply_nonempty_witness :
  exists reply,
    fst (get_ai_response (answers (lit "A bond is a debt instrument."))
           (lit "What is a bond?") fresh) = Done reply
    /\ reply <> [].
Proof.
  apply (get_ai_response_reply_nonempty
           (answers (lit "A bond is a debt instrument."))
           (lit "What is a bond?") fresh).
  intros s Hs _. injection Hs as <-. vm_compute. discriminate.
Defined.
